(** * Retrieval and intent routing of the heart-health chatbot

    A shallow embedding of the matching, routing, gating and history
    code of the repository, one module per source file, followed by the
    theorems about it.

    Modelling conventions.
    - Python [str] is [string]; [lower], [split], [find] and [join] are
      written out for the ASCII range (bytes above 127 are left alone).
    - Similarity scores are Python floats in the source; they are only
      compared, maximised and averaged, and are modelled as rationals [Q].
    - The sentence encoder and [cosine_similarity] are external: they are
      the fields of the class [EmbeddingModel].
    - A Python exception is the [Raise] case of [result]. *)

From Stdlib Require Import String Ascii List ZArith QArith Qminmax Bool Lia.
From Stdlib Require Import Sorted Permutation.
From Stdlib Require Import Lqa.
Import ListNotations.

Open Scope string_scope.

(** ** Python primitives *)

Inductive exn : Type :=
| AttributeError
| IndexError
| ValueError.

Inductive result (A : Type) : Type :=
| Ok (a : A)
| Raise (e : exn).

Arguments Ok {A} a.
Arguments Raise {A} e.

Definition bind {A B : Type} (m : result A) (k : A -> result B) : result B :=
  match m with
  | Ok a => k a
  | Raise e => Raise e
  end.

Notation "x <- m ;; k" := (bind m (fun x => k))
  (at level 61, m at next level, right associativity).
Notation "' pat <- m ;; k" := (bind m (fun x => match x with pat => k end))
  (at level 61, pat pattern, m at next level, right associativity).

Module Py.

(** [str.isspace] on one ASCII character. *)
Definition isspace (c : ascii) : bool :=
  let n := nat_of_ascii c in
  ((9 <=? n) && (n <=? 13) || (28 <=? n) && (n <=? 32))%nat.

Definition lower_char (c : ascii) : ascii :=
  let n := nat_of_ascii c in
  if ((65 <=? n) && (n <=? 90))%nat then ascii_of_nat (n + 32) else c.

(** [s.lower()] *)
Fixpoint lower (s : string) : string :=
  match s with
  | EmptyString => EmptyString
  | String c s' => String (lower_char c) (lower s')
  end.

Fixpoint lstrip (s : string) : string :=
  match s with
  | EmptyString => EmptyString
  | String c s' => if isspace c then lstrip s' else s
  end.

Fixpoint rstrip (s : string) : string :=
  match s with
  | EmptyString => EmptyString
  | String c s' =>
      match rstrip s' with
      | EmptyString => if isspace c then EmptyString else String c EmptyString
      | r => String c r
      end
  end.

(** [s.strip()] *)
Definition strip (s : string) : string := rstrip (lstrip s).

Definition flush (cur : string) (k : list string) : list string :=
  match cur with
  | EmptyString => k
  | _ => cur :: k
  end.

Fixpoint split_from (cur s : string) : list string :=
  match s with
  | EmptyString => flush cur []
  | String c s' =>
      if isspace c then flush cur (split_from EmptyString s')
      else split_from (cur ++ String c EmptyString) s'
  end.

(** [s.split()]: the maximal runs of non-whitespace characters. *)
Definition split (s : string) : list string := split_from EmptyString s.

(** [sep.join(l)] *)
Fixpoint join (sep : string) (l : list string) : string :=
  match l with
  | [] => EmptyString
  | [x] => x
  | x :: l' => x ++ sep ++ join sep l'
  end.

Fixpoint find_from (i : Z) (sub s : string) : Z :=
  if prefix sub s then i
  else match s with
       | EmptyString => (-1)%Z
       | String _ s' => find_from (i + 1)%Z sub s'
       end.

(** [s.find(sub)]: the lowest index at which [sub] occurs, or -1. *)
Definition find (s sub : string) : Z := find_from 0%Z sub s.

(** [sub in s] *)
Definition contains (s sub : string) : bool := negb (find s sub =? -1)%Z.

(** Truth value of a string: non-empty. *)
Definition truthy (s : string) : bool :=
  match s with
  | EmptyString => false
  | _ => true
  end.

(** Truth value of a list: non-empty. *)
Definition truthy_list {A : Type} (l : list A) : bool :=
  match l with
  | [] => false
  | _ :: _ => true
  end.

(** [l[index]] *)
Definition getitem {A : Type} (l : list A) (index : nat) : result A :=
  match nth_error l index with
  | Some a => Ok a
  | None => Raise IndexError
  end.

(** [l[-n:]] for [n > 0]: the last [n] elements. *)
Definition last_n {A : Type} (n : nat) (l : list A) : list A :=
  skipn (length l - n) l.

(** Comparisons of scores. *)
Definition geb (a b : Q) : bool := Qle_bool b a.
Definition ltb (a b : Q) : bool := negb (Qle_bool b a).
Definition gtb (a b : Q) : bool := negb (Qle_bool a b).

(** Builtin [max]: the running maximum is replaced only by a
    strictly greater item. *)
Definition max2 (a b : Q) : Q := if gtb b a then b else a.
Definition max3 (a b c : Q) : Q := max2 (max2 a b) c.

(** [max(l) if l else 0] *)
Definition max_or_zero (l : list Q) : Q :=
  match l with
  | [] => 0
  | x :: l' => fold_left max2 l' x
  end.

(** [any(score >= threshold for score in l)] *)
Definition any_ge (threshold : Q) (l : list Q) : bool :=
  existsb (fun score => geb score threshold) l.

(** [numpy.argmax]: the first index holding the maximum. *)
Fixpoint argmax_from (i best_i : nat) (best : Q) (l : list Q) : nat :=
  match l with
  | [] => best_i
  | x :: l' =>
      if gtb x best then argmax_from (S i) i x l'
      else argmax_from (S i) best_i best l'
  end.

Definition argmax (l : list Q) : result nat :=
  match l with
  | [] => Raise ValueError
  | x :: l' => Ok (argmax_from 1 0 x l')
  end.

End Py.

(** ** External collaborators and the knowledge base *)

(** The sentence encoder and the similarity primitive. *)
Class EmbeddingModel : Type := {
  vector : Type;
  encode : string -> vector;
  cosine_similarity : vector -> vector -> Q
}.

(** One entry of [db_embeddings]. *)
Record ItemEmbeddings `{EmbeddingModel} : Type := {
  trigger_embedding : vector;
  synonyms_embeddings : list vector;
  keywords_embeddings : list vector
}.

(** The four answer columns. *)
Inductive Intent : Type := What | Symptoms | Why | How.

(** One entry of [database] in the files with answer columns. *)
Record Item : Type := {
  trigger_word : string;
  synonyms : list string;
  keywords : list string;
  col_What : string;
  col_Why : string;
  col_How : string;
  col_Symptoms : string
}.

(** [item[column]] for a column name. *)
Definition column (item : Item) (c : Intent) : string :=
  match c with
  | What => col_What item
  | Symptoms => col_Symptoms item
  | Why => col_Why item
  | How => col_How item
  end.

(** The names imported from the [embeddings] module. *)
Class Embeddings `{EmbeddingModel} : Type := {
  database : list Item;
  db_embeddings : list ItemEmbeddings;
  column_names : list Intent;
  column_embeddings : list vector;
  domain_embeddings : list vector
}.

(** The normaliser imported from the [helpers] module. *)
Class Helpers : Type := {
  correct_spelling : string -> string
}.

(** What [match_columns] and the orchestrator pass around: one record
    (a dict) or a list of records. *)
Inductive pyobj : Type :=
| PyDict (item : Item)
| PyList (items : list Item).

(** [obj.get(column)]; a list has no such attribute. *)
Definition py_get (obj : pyobj) (c : Intent) : result string :=
  match obj with
  | PyDict item => Ok (column item c)
  | PyList _ => Raise AttributeError
  end.

(** The three component scores of one record and their mean, as every
    file but Logic1_OnlyCSV.py computes them. *)
Section ComponentScores.
Context `{EmbeddingModel}.

Definition trigger_score (query_embedding : vector)
    (item_embeddings : ItemEmbeddings) : Q :=
  cosine_similarity query_embedding (trigger_embedding item_embeddings).

Definition max_synonym_score (query_embedding : vector)
    (item_embeddings : ItemEmbeddings) : Q :=
  Py.max_or_zero
    (map (cosine_similarity query_embedding)
         (synonyms_embeddings item_embeddings)).

Definition max_keyword_score (query_embedding : vector)
    (item_embeddings : ItemEmbeddings) : Q :=
  Py.max_or_zero
    (map (cosine_similarity query_embedding)
         (keywords_embeddings item_embeddings)).

Definition avg_score (t s k : Q) : Q := (t + s + k) / 3.

(** [t >= 0.65 or s >= 0.65 or k >= 0.65] *)
Definition is_strong (t s k : Q) : bool :=
  Py.geb t (65 # 100) || Py.geb s (65 # 100) || Py.geb k (65 # 100).

(** [t < 0.65 and s < 0.65 and k < 0.65] *)
Definition all_weak (t s k : Q) : bool :=
  Py.ltb t (65 # 100) && Py.ltb s (65 # 100) && Py.ltb k (65 # 100).

End ComponentScores.

(** ** Intent routing shared by the two [match_columns] *)

(** [matching_columns.sort(key=lambda x: x[0])]: a stable sort on the
    position. *)
Fixpoint insert_by_position (x : Z * string) (l : list (Z * string))
    : list (Z * string) :=
  match l with
  | [] => [x]
  | y :: l' =>
      if (fst x <? fst y)%Z then x :: y :: l'
      else y :: insert_by_position x l'
  end.

Definition sort_by_position (l : list (Z * string)) : list (Z * string) :=
  fold_left (fun acc x => insert_by_position x acc) l [].

(** The inner loop over the keywords of one column: the first keyword
    (in list order) that occurs in the query and whose column is
    non-empty gives the pair, and the loop breaks. *)
Fixpoint scan_keywords (query_lower : string) (best_match_response : pyobj)
    (col : Intent) (keywords : list string) : result (option (Z * string)) :=
  match keywords with
  | [] => Ok None
  | keyword :: rest =>
      let keyword_lower := Py.lower keyword in
      let position := Py.find query_lower keyword_lower in
      if (position =? -1)%Z then
        scan_keywords query_lower best_match_response col rest
      else
        value <- py_get best_match_response col ;;
        if Py.truthy value then Ok (Some (position, value))
        else scan_keywords query_lower best_match_response col rest
  end.

(** The outer loop over [intent_words.items()]. *)
Fixpoint scan_columns (query_lower : string) (best_match_response : pyobj)
    (intent_words : list (Intent * list string))
    (matching_columns : list (Z * string)) (match_found : bool)
    : result (list (Z * string) * bool) :=
  match intent_words with
  | [] => Ok (matching_columns, match_found)
  | (col, keywords) :: rest =>
      hit <- scan_keywords query_lower best_match_response col keywords ;;
      match hit with
      | Some pr =>
          scan_columns query_lower best_match_response rest
            (matching_columns ++ [pr])%list true
      | None =>
          scan_columns query_lower best_match_response rest
            matching_columns match_found
      end
  end.

(** The default step: when nothing matched, the first column of the
    table is added at position 0 if it is non-empty, and the flag is
    raised. *)
Definition add_default (best_match_response : pyobj)
    (intent_words : list (Intent * list string))
    (matching_columns : list (Z * string)) (match_found : bool)
    : result (list (Z * string) * nat) :=
  match intent_words with
  | (first_column, _) :: _ =>
      if negb match_found then
        default_response <- py_get best_match_response first_column ;;
        if Py.truthy default_response
        then Ok ((matching_columns ++ [(0%Z, default_response)])%list, 1%nat)
        else Ok (matching_columns, 0%nat)
      else Ok (matching_columns, 0%nat)
  | [] => Ok (matching_columns, 0%nat)
  end.

(** The last resort: the column whose name embedding is most similar
    to the query. *)
Definition fallback_column `{Embeddings} (query_lower : string)
    (best_match_response : pyobj) : result string :=
  let query_embedding := encode query_lower in
  let column_scores :=
    map (cosine_similarity query_embedding) column_embeddings in
  best_column_index <- Py.argmax column_scores ;;
  best_column_name <- Py.getitem column_names best_column_index ;;
  py_get best_match_response best_column_name.

Definition nl : string := String (ascii_of_nat 10) EmptyString.

Definition placeholder_response : string :=
  "This is a placeholder response generated for your question.".

Definition refusal : string :=
  "I'm sorry, I can only answer questions related to women's heart health. Can you please clarify your question?".

Definition prompt_for (corrected_input : string) : string :=
  "User asked: " ++ corrected_input
  ++ ". Please provide a helpful response related to women's heart health.".

(** ** chatbot/response_generation.py *)

Module ResponseGeneration.
Section Defs.
Context `{E : Embeddings} {Hp : Helpers}.

(** The generator of Pass 1, over [enumerate(db_embeddings)]. *)
Fixpoint match_generator (query_words : list string) (index : nat)
    (embs : list ItemEmbeddings) : result (list Item) :=
  match embs with
  | [] => Ok []
  | _ :: rest =>
      item <- Py.getitem database index ;;
      let trigger_words := Py.split (Py.lower (trigger_word item)) in
      let common_words :=
        filter (fun w => existsb (String.eqb w) query_words) trigger_words in
      more <- match_generator query_words (S index) rest ;;
      match common_words with
      | [] => Ok more
      | _ :: _ => Ok (item :: more)
      end
  end.

(** The running values of Pass 2. *)
Record Pass2 : Type := {
  best_match_score : Q;
  best_max_match_score : Q;
  best_match_response : list Item;
  best_max_match_response : list Item
}.

Definition pass2_init : Pass2 :=
  {| best_match_score := 0; best_max_match_score := 0;
     best_match_response := []; best_max_match_response := [] |}.

(** One iteration of the scoring loop. *)
Definition pass2_step (query_embedding : vector) (st : Pass2) (index : nat)
    (item_embeddings : ItemEmbeddings) : result Pass2 :=
  let t := trigger_score query_embedding item_embeddings in
  let s := max_synonym_score query_embedding item_embeddings in
  let k := max_keyword_score query_embedding item_embeddings in
  let avg := avg_score t s k in
  st1 <- (if is_strong t s k then
            item <- Py.getitem database index ;;
            Ok {| best_match_score := best_match_score st;
                  best_max_match_score := Py.max3 t s k;
                  best_match_response := best_match_response st;
                  best_max_match_response :=
                    (best_max_match_response st ++ [item])%list |}
          else Ok st) ;;
  if Py.gtb avg (best_match_score st1) && all_weak t s k then
    item <- Py.getitem database index ;;
    Ok {| best_match_score := avg;
          best_max_match_score := best_max_match_score st1;
          best_match_response := (best_match_response st1 ++ [item])%list;
          best_max_match_response := best_max_match_response st1 |}
  else Ok st1.

Fixpoint pass2_loop (query_embedding : vector) (st : Pass2) (index : nat)
    (embs : list ItemEmbeddings) : result Pass2 :=
  match embs with
  | [] => Ok st
  | item_embeddings :: rest =>
      st' <- pass2_step query_embedding st index item_embeddings ;;
      pass2_loop query_embedding st' (S index) rest
  end.

(** The decision taken after the loop. *)
Definition decide (threshold : Q) (st : Pass2) : option (list Item) :=
  if Py.geb (best_match_score st) threshold
     && Py.ltb (best_max_match_score st) (best_match_score st)
  then Some (best_match_response st)
  else if Py.gtb (best_max_match_score st) (best_match_score st)
  then Some (best_max_match_response st)
  else None.

Definition find_best_context (query : string) (threshold : Q)
    : result (option (list Item)) :=
  let query_embedding := encode (Py.lower query) in
  let query_words := Py.split (Py.lower (Py.strip query)) in
  matches <- match_generator query_words 0 db_embeddings ;;
  match matches with
  | _ :: _ => Ok (Some matches)
  | [] =>
      st <- pass2_loop query_embedding pass2_init 0 db_embeddings ;;
      Ok (decide threshold st)
  end.

Definition intent_words : list (Intent * list string) :=
  [ (What,
     ["What"; "Define"; "Identify"; "Describe"; "Clarify"; "Specify";
      "Detail"; "Outline"; "State"; "Explain"; "Determine"; "Depict";
      "Summarize"; "Designate"; "Distinguish"]);
    (Symptoms,
     ["Symptoms"; "Signs"; "Indications"; "Manifestations"; "Warning";
      "Clues"; "Evidence"; "Redflags"; "Markers"; "Presentations";
      "Outcomes"; "Patterns"; "Phenomena"; "Traits"; "Occurrences"]);
    (Why,
     ["Why"; "Causes"; "Reason"; "Purpose"; "Explain"; "Justification";
      "Origin"; "Motive"; "Trigger"; "Rationale"; "Grounds"; "Basis";
      "Excuse"; "Source"; "Factor"]);
    (How,
     ["How"; "Method"; "Means"; "Procedure"; "Steps"; "Technique";
      "Process"; "Way"; "Approach"; "Strategy"; "System"; "Manner";
      "Framework"; "Form"; "Mode"; "Prevention"; "Avoidance"; "Safeguard";
      "Protection"; "Mitigation"; "Reduction"; "Intervention"; "Defense";
      "Deterrence"; "Shielding"; "Do"]) ].

Definition match_columns (query : string) (best_match_response : pyobj)
    : result (string * nat) :=
  let query_lower := Py.lower query in
  let query_lower := correct_spelling query_lower in
  '(matching_columns, match_found) <-
    scan_columns query_lower best_match_response intent_words [] false ;;
  '(matching_columns, best_match_response_flag) <-
    add_default best_match_response intent_words
      matching_columns match_found ;;
  let matching_columns := sort_by_position matching_columns in
  let responses := map snd matching_columns in
  match responses with
  | _ :: _ => Ok (Py.join " " responses, best_match_response_flag)
  | [] =>
      value <- fallback_column query_lower best_match_response ;;
      Ok (value, best_match_response_flag)
  end.

Definition is_domain_relevant (query : string) (threshold : Q) : bool :=
  let query_embedding := encode (Py.lower query) in
  let relevance_scores :=
    map (cosine_similarity query_embedding) domain_embeddings in
  Py.any_ge threshold relevance_scores.

Definition generate_response_with_placeholder (prompt : string) : string :=
  placeholder_response.

Definition disclaimer : string :=
  nl ++ " For personalized advice or concerns about your health, Please consult our healthcare professional. We can provide you with the best guidance based on your specific needs.".

Definition separator : string := " " ++ nl ++ nl ++ " ".

(** The loop of the direct path: each record is routed, the non-empty
    answers are collected, and the flag variable is overwritten at
    every iteration. *)
Fixpoint route_all (user_input : string) (context_responses : list Item)
    (combined_responses : list string) (best_match_response_flag : nat)
    : result (list string * nat) :=
  match context_responses with
  | [] => Ok (combined_responses, best_match_response_flag)
  | context_response :: rest =>
      '(column_response, flag) <-
        match_columns user_input (PyDict context_response) ;;
      route_all user_input rest
        (if Py.truthy column_response
         then (combined_responses ++ [column_response])%list
         else combined_responses)
        flag
  end.

(** Steps of [get_response] after the direct match failed. *)
Definition gate (corrected_input : string) : string :=
  if is_domain_relevant corrected_input (4 # 10) then
    generate_response_with_placeholder (prompt_for corrected_input)
  else refusal.

Definition retry (user_input : string) (threshold : Q) : result string :=
  let corrected_input := correct_spelling user_input in
  if negb (String.eqb corrected_input user_input) then
    context_response <- find_best_context corrected_input threshold ;;
    match context_response with
    | Some ((_ :: _) as items) =>
        '(column_response, best_match_response_flag) <-
          match_columns corrected_input (PyList items) ;;
        Ok (if (best_match_response_flag =? 1)%nat
            then column_response ++ disclaimer
            else column_response)
    | _ => Ok (gate corrected_input)
    end
  else Ok (gate corrected_input).

Definition get_response (user_input : string) (threshold : Q)
    : result string :=
  context_responses <- find_best_context user_input threshold ;;
  match context_responses with
  | Some ((_ :: _) as items) =>
      '(combined_responses, best_match_response_flag) <-
        route_all user_input items [] 0%nat ;;
      let final_response := Py.join separator combined_responses in
      Ok (if (best_match_response_flag =? 1)%nat
          then final_response ++ disclaimer
          else final_response)
  | _ => retry user_input threshold
  end.

End Defs.
End ResponseGeneration.

(** ** utils/analyse_dataframe.py *)

Module AnalyseDataframe.
Section Defs.
Context `{E : Embeddings} {Hp : Helpers}.

(** The running values of the scoring loop; here each response
    variable holds one record. *)
Record Pass2 : Type := {
  best_match_score : Q;
  best_max_match_score : Q;
  best_match_response : option Item;
  best_max_match_response : option Item
}.

Definition pass2_init : Pass2 :=
  {| best_match_score := 0; best_max_match_score := 0;
     best_match_response := None; best_max_match_response := None |}.

Definition pass2_step (query_embedding : vector) (st : Pass2) (index : nat)
    (item_embeddings : ItemEmbeddings) : result Pass2 :=
  let t := trigger_score query_embedding item_embeddings in
  let s := max_synonym_score query_embedding item_embeddings in
  let k := max_keyword_score query_embedding item_embeddings in
  let avg := avg_score t s k in
  st1 <- (if is_strong t s k then
            item <- Py.getitem database index ;;
            Ok {| best_match_score := best_match_score st;
                  best_max_match_score := Py.max3 t s k;
                  best_match_response := best_match_response st;
                  best_max_match_response := Some item |}
          else Ok st) ;;
  if Py.gtb avg (best_match_score st1) && all_weak t s k then
    item <- Py.getitem database index ;;
    Ok {| best_match_score := avg;
          best_max_match_score := best_max_match_score st1;
          best_match_response := Some item;
          best_max_match_response := best_max_match_response st1 |}
  else Ok st1.

Fixpoint pass2_loop (query_embedding : vector) (st : Pass2) (index : nat)
    (embs : list ItemEmbeddings) : result Pass2 :=
  match embs with
  | [] => Ok st
  | item_embeddings :: rest =>
      st' <- pass2_step query_embedding st index item_embeddings ;;
      pass2_loop query_embedding st' (S index) rest
  end.

Definition decide (threshold : Q) (st : Pass2) : option Item :=
  if Py.geb (best_match_score st) threshold
     && Py.ltb (best_max_match_score st) (best_match_score st)
  then best_match_response st
  else if Py.gtb (best_max_match_score st) (best_match_score st)
  then best_max_match_response st
  else None.

Definition find_best_context (query : string) (threshold : Q)
    : result (option Item) :=
  let query_embedding := encode (Py.lower query) in
  st <- pass2_loop query_embedding pass2_init 0 db_embeddings ;;
  Ok (decide threshold st).

Definition intent_words : list (Intent * list string) :=
  [ (What,
     ["What"; "Define"; "Identify"; "Describe"; "Clarify"; "Specify";
      "Detail"; "Outline"; "State"; "Explain"; "Determine"; "Depict";
      "Summarize"; "Designate"; "Distinguish"]);
    (Symptoms,
     ["Symptoms"; "Signs"; "Indications"; "Manifestations"; "Warning";
      "Clues"; "Evidence"; "Redflags"; "Markers"; "Presentations";
      "Outcomes"; "Patterns"; "Phenomena"; "Traits"; "Occurrences"]);
    (Why,
     ["Why"; "Causes"; "Reason"; "Purpose"; "Explain"; "Justification";
      "Origin"; "Motive"; "Trigger"; "Rationale"; "Grounds"; "Basis";
      "Excuse"; "Source"; "Factor"]);
    (How,
     ["How"; "Method"; "Means"; "Procedure"; "Steps"; "Technique";
      "Process"; "Way"; "Approach"; "Strategy"; "System"; "Manner";
      "Framework"; "Form"; "Mode"; "Prevention"; "Avoidance"; "Safeguard";
      "Protection"; "Mitigation"; "Reduction"; "Intervention"; "Defense";
      "Deterrence"; "Shielding"]) ].

(** Same routing as in response_generation.py, without the flag. *)
Definition match_columns (query : string) (best_match_response : pyobj)
    : result string :=
  let query_lower := Py.lower query in
  let query_lower := correct_spelling query_lower in
  '(matching_columns, match_found) <-
    scan_columns query_lower best_match_response intent_words [] false ;;
  '(matching_columns, _) <-
    add_default best_match_response intent_words
      matching_columns match_found ;;
  let matching_columns := sort_by_position matching_columns in
  let responses := map snd matching_columns in
  match responses with
  | _ :: _ => Ok (Py.join " " responses)
  | [] => fallback_column query_lower best_match_response
  end.

End Defs.
End AnalyseDataframe.

(** ** Files whose records carry a single [response] column *)

Module Csv.
Record Item : Type := {
  trigger_word : string;
  synonyms : list string;
  keywords : list string;
  response : string
}.
End Csv.

Class CsvBase `{EmbeddingModel} : Type := {
  csv_database : list Csv.Item;
  csv_db_embeddings : list ItemEmbeddings
}.

(** [spellchecker.correction(word)] yields a word or [None]. *)
Class SpellChecker : Type := {
  correction : string -> option string
}.

(** Truth value of an optional string. *)
Definition truthy_opt (o : option string) : bool :=
  match o with
  | Some s => Py.truthy s
  | None => false
  end.

(** ** Logic1_OnlyCSV.py *)

Module Logic1.
Section Defs.
Context `{B : CsvBase} {Sp : SpellChecker}.

Definition domain_keywords : list string :=
  ["heart"; "cardiac"; "women"; "health"; "cardiology"].

Definition domain_embeddings : list vector := map encode domain_keywords.

Definition correct_word (word : string) : string :=
  if truthy_opt (correction word)
  then match correction word with Some w => w | None => word end
  else word.

Definition correct_spelling (text : string) : string :=
  if (1 <? length (Py.split text))%nat then
    let corrected_words := map correct_word (Py.split text) in
    let corrected_text := Py.join " " corrected_words in
    corrected_text
  else text.

(** The three maxima of one record, lines 88 to 95: the list named
    [trigger_scores] is built from the synonym embeddings. *)
Definition component_scores (query_embedding : vector)
    (item_embeddings : ItemEmbeddings) : Q * Q * Q :=
  let trigger_scores :=
    map (cosine_similarity query_embedding)
        (synonyms_embeddings item_embeddings) in
  let synonyms_scores :=
    map (cosine_similarity query_embedding)
        (synonyms_embeddings item_embeddings) in
  let keywords_scores :=
    map (cosine_similarity query_embedding)
        (keywords_embeddings item_embeddings) in
  let max_trigger_score :=
    match synonyms_scores with
    | [] => 0
    | _ :: _ => Py.max_or_zero trigger_scores
    end in
  let max_synonym_score := Py.max_or_zero synonyms_scores in
  let max_keyword_score := Py.max_or_zero keywords_scores in
  (max_trigger_score, max_synonym_score, max_keyword_score).

Definition step (query_embedding : vector) (threshold : Q)
    (st : Q * option string) (index : nat)
    (item_embeddings : ItemEmbeddings) : result (Q * option string) :=
  let '(best_match_score, best_match_response) := st in
  let '(max_trigger_score, max_synonym_score, max_keyword_score) :=
    component_scores query_embedding item_embeddings in
  let max_score :=
    Py.max3 max_trigger_score max_synonym_score max_keyword_score in
  if Qeq_bool max_score max_trigger_score
     || Qeq_bool max_score max_synonym_score
     || Qeq_bool max_score max_keyword_score
  then
    if Py.gtb max_score best_match_score && Py.geb max_score threshold then
      item <- Py.getitem csv_database index ;;
      Ok (max_score, Some (Csv.response item))
    else Ok st
  else Ok st.

Fixpoint loop (query_embedding : vector) (threshold : Q)
    (st : Q * option string) (index : nat)
    (embs : list ItemEmbeddings) : result (Q * option string) :=
  match embs with
  | [] => Ok st
  | item_embeddings :: rest =>
      st' <- step query_embedding threshold st index item_embeddings ;;
      loop query_embedding threshold st' (S index) rest
  end.

Definition find_best_context (query : string) (threshold : Q)
    : result (option string) :=
  let query_embedding := encode (Py.lower query) in
  st <- loop query_embedding threshold (0, None) 0 csv_db_embeddings ;;
  Ok (snd st).

Definition generate_response_with_placeholder (prompt : string) : string :=
  placeholder_response.

Definition is_domain_relevant (query : string) (threshold : Q) : bool :=
  let query_embedding := encode (Py.lower query) in
  let relevance_scores :=
    map (cosine_similarity query_embedding) domain_embeddings in
  Py.any_ge threshold relevance_scores.

(** The domain gate and what follows it; the second component is the
    list of messages [get_response] itself logs. *)
Definition gate (corrected_input : string) (log : list string)
    : string * list string :=
  let log := (log ++ ["Checking Domain relevance"])%list in
  if is_domain_relevant corrected_input (4 # 10) then
    let prompt := prompt_for corrected_input in
    (generate_response_with_placeholder prompt,
     (log ++ [("Prompt for Generative API: " ++ prompt)%string])%list)
  else (refusal, log).

Definition get_response (user_input : string) (threshold : Q)
    : result (string * list string) :=
  let log := ["Direct Match"] in
  context_response <- find_best_context user_input threshold ;;
  if truthy_opt context_response then
    Ok (match context_response with
        | Some r => r
        | None => EmptyString
        end, log)
  else
    let log := (log ++ ["After Spell Correction"])%list in
    let corrected_input := correct_spelling user_input in
    if negb (String.eqb corrected_input user_input) then
      let log :=
        (log ++ [("Corrected Input: " ++ corrected_input)%string])%list in
      context_response <- find_best_context corrected_input threshold ;;
      if truthy_opt context_response then
        Ok (match context_response with
            | Some r => r
            | None => EmptyString
            end, log)
      else Ok (gate corrected_input log)
    else Ok (gate corrected_input log).

End Defs.
End Logic1.

(** ** maxFromEachColumn.py *)

Module MaxFromEachColumn.
Section Defs.
Context `{E : Embeddings} {Sp : SpellChecker}.

Definition correct_word (word : string) : string :=
  if truthy_opt (correction word)
  then match correction word with Some w => w | None => word end
  else word.

Definition correct_spelling (text : string) : string :=
  if (1 <? length (Py.split text))%nat then
    let corrected_words := map correct_word (Py.split text) in
    let corrected_text := Py.join " " corrected_words in
    corrected_text
  else text.

Definition component_scores (query_embedding : vector)
    (item_embeddings : ItemEmbeddings) : Q * Q * Q :=
  (trigger_score query_embedding item_embeddings,
   max_synonym_score query_embedding item_embeddings,
   max_keyword_score query_embedding item_embeddings).

(** The loop returns early ([inl]) on the first strong record. *)
Fixpoint loop (query_embedding : vector) (st : Q * option Item)
    (index : nat) (embs : list ItemEmbeddings)
    : result (Item + Q * option Item) :=
  match embs with
  | [] => Ok (inr st)
  | item_embeddings :: rest =>
      let '(t, s, k) := component_scores query_embedding item_embeddings in
      let avg := avg_score t s k in
      if is_strong t s k then
        item <- Py.getitem database index ;;
        Ok (inl item)
      else if Py.gtb avg (fst st) && all_weak t s k then
        item <- Py.getitem database index ;;
        loop query_embedding (avg, Some item) (S index) rest
      else loop query_embedding st (S index) rest
  end.

Definition find_best_context (query : string) (threshold : Q)
    : result (option Item) :=
  let query_embedding := encode (Py.lower query) in
  r <- loop query_embedding (0, None) 0 db_embeddings ;;
  match r with
  | inl item => Ok (Some item)
  | inr (best_match_score, best_match_response) =>
      if Py.geb best_match_score threshold
      then Ok best_match_response
      else Ok None
  end.

(** The intent table of [match_column], in the order of the dict. *)
Definition intent_words : list (Intent * list string) :=
  [ (Symptoms,
     ["Symptoms"; "Signs"; "Indications"; "Manifestations";
      "What are the symptoms"; "What signs"; "What does it feel like";
      "How does it manifest"; "What are the warning signs";
      "What could indicate"; "What happens when"; "How does it show";
      "What’s the symptomatology"]);
    (Why,
     ["Why"; "For what reason"; "How come"; "causes"; "What causes";
      "Why is it that"; "Why do"; "Why does"; "Why should"; "Explain why";
      "Give the reason"; "What’s the purpose of"; "What’s the point of";
      "Why do you think"; "What’s the reason for"]);
    (How,
     ["How"; "In what way"; "By what means"; "How do"; "How does"; "How to";
      "How can"; "How might"; "How could"; "Explain how"; "Describe how";
      "In what manner"; "In what method"; "What steps";
      "What’s the procedure for"]);
    (What,
     ["What"; "Which"; "Identify"; "Define"; "Explain"; "Describe";
      "Clarify"; "Tell me about"; "What is"; "What are"; "What's";
      "What exactly"]) ].

(** The two nested loops of [match_column]: the first column, in table
    order, one of whose words occurs in the query. *)
Fixpoint scan_intents (query_lower : string)
    (table : list (Intent * list string)) : option Intent :=
  match table with
  | [] => None
  | (col, words) :: rest =>
      if existsb (fun word => Py.contains query_lower (Py.lower word)) words
      then Some col
      else scan_intents query_lower rest
  end.

Definition match_column (query : string) (best_match_response : Item)
    : result string :=
  let query_lower := Py.lower query in
  let query_lower := correct_spelling query_lower in
  match scan_intents query_lower intent_words with
  | Some col => Ok (column best_match_response col)
  | None =>
      let query_embedding := encode query_lower in
      let column_scores :=
        map (cosine_similarity query_embedding) column_embeddings in
      best_column_index <- Py.argmax column_scores ;;
      best_column_name <- Py.getitem column_names best_column_index ;;
      Ok (column best_match_response best_column_name)
  end.

Definition is_domain_relevant (query : string) (threshold : Q) : bool :=
  let query_embedding := encode (Py.lower query) in
  let relevance_scores :=
    map (cosine_similarity query_embedding) domain_embeddings in
  Py.any_ge threshold relevance_scores.

(** [get_response] hands the history back as it received it; the
    endpoint appends the exchange afterwards. *)
Definition get_response (user_input : string)
    (context_history : list (string * string)) (threshold : Q)
    : result (string * list (string * string)) :=
  context_response <- find_best_context user_input threshold ;;
  match context_response with
  | Some item =>
      column_response <- match_column user_input item ;;
      Ok (column_response, context_history)
  | None =>
      let corrected_input := correct_spelling user_input in
      retried <-
        (if negb (String.eqb corrected_input user_input)
         then find_best_context corrected_input threshold
         else Ok None) ;;
      match retried with
      | Some item =>
          column_response <- match_column corrected_input item ;;
          Ok (column_response, context_history)
      | None =>
          if is_domain_relevant corrected_input (4 # 10)
          then Ok (placeholder_response, context_history)
          else Ok (refusal, context_history)
      end
  end.

End Defs.
End MaxFromEachColumn.

(** ** Different Concept Implementations/July18/app3Japanese.py *)

(** The generative model behind [generate_response_with_gemini]; the
    function catches every exception and always yields a string. *)
Class Generator : Type := {
  generate_response_with_gemini : string -> string
}.

Module App3Japanese.

(** One exchange of [context_history['history']]. *)
Record Turn : Type := {
  user_input : string;
  bot_response : string
}.

(** The session value [{"context": [...], "history": [...]}]. *)
Record ContextHistory : Type := {
  context : list string;
  history : list Turn
}.

Definition empty_history : ContextHistory :=
  {| context := []; history := [] |}.

Section Defs.
Context `{B : CsvBase} {G : Generator}.

Definition step (query_embedding : vector) (threshold : Q)
    (st : Q * option string) (index : nat)
    (item_embeddings : ItemEmbeddings) : result (Q * option string) :=
  let t := trigger_score query_embedding item_embeddings in
  let s := max_synonym_score query_embedding item_embeddings in
  let k := max_keyword_score query_embedding item_embeddings in
  let max_score := Py.max3 t s k in
  if Py.gtb max_score (fst st) && Py.geb max_score threshold then
    item <- Py.getitem csv_database index ;;
    Ok (max_score, Some (Csv.response item))
  else Ok st.

Fixpoint loop (query_embedding : vector) (threshold : Q)
    (st : Q * option string) (index : nat)
    (embs : list ItemEmbeddings) : result (Q * option string) :=
  match embs with
  | [] => Ok st
  | item_embeddings :: rest =>
      st' <- step query_embedding threshold st index item_embeddings ;;
      loop query_embedding threshold st' (S index) rest
  end.

Definition find_best_context (query : string) (threshold : Q)
    : result (option string) :=
  let query_embedding := encode (Py.lower query) in
  st <- loop query_embedding threshold (0, None) 0 csv_db_embeddings ;;
  Ok (snd st).

Definition follow_up_keywords : list string :=
  ["what about"; "and"; "also"; "more"; "else"; "further"].

Definition show_turn (h : Turn) : string :=
  "User: " ++ user_input h ++ " Bot: " ++ bot_response h.

Definition get_relevant_context (input : string) (ch : ContextHistory)
    : string :=
  if existsb (fun keyword => Py.contains (Py.lower input) keyword)
             follow_up_keywords
     && (1 <? length (history ch))%nat
  then Py.join " " (map show_turn (Py.last_n 2 (history ch)))
  else Py.join " " (map show_turn (Py.last_n 1 (history ch))).

Definition greetings : list string :=
  ["こんにちは"; "こんばんは"; "おはよう"].

Definition greeting_reply : string :=
  "こんにちは！心臓の健康についてどんな質問がありますか？".

Definition fallback_response : string :=
  "申し訳ありませんが、その質問にはお答えできません。心臓の健康に関する質問をお願いします。".

Definition make_prompt (input relevant_context context_response : string)
    : string :=
  "User asked: " ++ input ++ nl ++ "Context: " ++ relevant_context ++ nl
  ++ "Matched response: " ++ context_response ++ nl
  ++ "Please enhance and provide a concise, friendly, and helpful response within 150 words. "
  ++ "Also avoid any AI Disclaimers in the message so that it does not sound robotic.".

(** [history[-1]['bot_response'] = response] *)
Definition set_last_response (response : string) (h : list Turn)
    : list Turn :=
  match rev h with
  | [] => []
  | last :: before =>
      rev ({| user_input := user_input last;
              bot_response := response |} :: before)
  end.

Definition get_response (input : string) (ch : ContextHistory)
    (threshold : Q) : result (string * ContextHistory) :=
  let input := Py.lower input in
  if existsb (String.eqb input) greetings then Ok (greeting_reply, ch)
  else
    context_response <- find_best_context input threshold ;;
    match context_response with
    | Some (String _ _ as matched) =>
        let ch :=
          {| context := (context ch ++ [matched])%list;
             history :=
               (history ch
                ++ [{| user_input := input;
                       bot_response := EmptyString |}])%list |}
        in
        let relevant_context := get_relevant_context input ch in
        let prompt := make_prompt input relevant_context matched in
        let response := generate_response_with_gemini prompt in
        let ch :=
          {| context := context ch;
             history := set_last_response response (history ch) |} in
        let ch :=
          if (10 <? length (history ch))%nat
          then {| context := context ch;
                  history := Py.last_n 10 (history ch) |}
          else ch in
        Ok (response, ch)
    | _ =>
        let ch :=
          {| context := context ch;
             history :=
               (history ch
                ++ [{| user_input := input;
                       bot_response := fallback_response |}])%list |} in
        Ok (fallback_response, ch)
    end.

(** The endpoint stores the returned history back into the session,
    so a session is the iteration of [get_response] (default
    threshold 0.4) over the inputs received. *)
Fixpoint session (inputs : list string) (ch : ContextHistory)
    : result ContextHistory :=
  match inputs with
  | [] => Ok ch
  | input :: rest =>
      '(_, ch') <- get_response input ch (4 # 10) ;;
      session rest ch'
  end.

End Defs.
End App3Japanese.

(** ** Concrete collaborators used to run the code on examples *)

Module Demo.

(** Unit vectors of the plane; on unit vectors the cosine similarity
    is the dot product. *)
Definition dot (u v : Q * Q) : Q := fst u * fst v + snd u * snd v.

Definition plane (enc : string -> Q * Q) : EmbeddingModel :=
  {| vector := (Q * Q)%type; encode := enc; cosine_similarity := dot |}.

(** An encoder sending every text to the first axis: the similarity
    of a stored unit vector is then its first coordinate. *)
Definition east : EmbeddingModel := plane (fun _ => (1, 0)).

Definition emb (trigger : Q * Q) (syns kws : list (Q * Q))
    : @ItemEmbeddings east :=
  @Build_ItemEmbeddings east trigger syns kws.

Definition item (trigger what why how symptoms : string) : Item :=
  {| trigger_word := trigger;
     synonyms := [EmptyString]; keywords := [EmptyString];
     col_What := what; col_Why := why; col_How := how;
     col_Symptoms := symptoms |}.

(** The column names are those of maxFromEachColumn.py; the domain
    keyword vectors have similarities 0.6, 0.28, 0, 0 and 0. *)
Definition base (db : list Item) (embs : list (@ItemEmbeddings east))
    : @Embeddings east :=
  @Build_Embeddings east db embs [What; Why; How; Symptoms]
    [(1, 0); (0, 1); (0, 1); (0, 1)]
    [(3 # 5, 4 # 5); (7 # 25, 24 # 25); (0, 1); (0, 1); (0, 1)].

Definition csv_item (trigger reply : string) : Csv.Item :=
  {| Csv.trigger_word := trigger; Csv.synonyms := ["chest pain"];
     Csv.keywords := ["heart"]; Csv.response := reply |}.

(** One record: the trigger vector is close to the query
    (similarity 0.96), the synonym is far (0.28), the keyword in
    between (0.6). *)
Definition csv : @CsvBase east :=
  @Build_CsvBase east
    [csv_item "angina" "Angina is chest pain."]
    [emb (24 # 25, 7 # 25) [(7 # 25, 24 # 25)] [(3 # 5, 4 # 5)]].

Definition angina : Item :=
  item "angina" "Angina is chest pain." "It signals a risk of heart attack."
       "Manage stress." "Chest tightness.".

Definition cholesterol : Item :=
  item "Cholesterol" "Cholesterol is a fat found in blood." EmptyString
       "Eat a low-fat diet." EmptyString.

(** The vector stored for a blank synonym or keyword cell: similarity
    0 to every query. *)
Definition blank : list (Q * Q) := [(0, 1)].

(** Two records whose trigger vectors are far from the first axis
    (similarities 0.28 and 0.6). *)
Definition kb : @Embeddings east :=
  base [angina; cholesterol]
       [emb (7 # 25, 24 # 25) blank blank; emb (3 # 5, 4 # 5) blank blank].

(** A normaliser that leaves every text as it is. *)
Definition no_correction : Helpers := {| correct_spelling := fun s => s |}.

(** A normaliser that repairs two misspelt words. *)
Definition fix_word (w : string) : option string :=
  if String.eqb w "wat" then Some "what"
  else if String.eqb w "angna" then Some "angina"
  else None.

Definition checker : SpellChecker := {| correction := fix_word |}.

(** The normaliser of Logic1_OnlyCSV.py over that checker. *)
Definition speller : Helpers :=
  {| correct_spelling := @Logic1.correct_spelling checker |}.

(** Two records that are both strong for every query: similarities
    0.96 and 0.8 on the trigger. *)
Definition kb_strong : @Embeddings east :=
  base [angina; cholesterol]
       [emb (24 # 25, 7 # 25) blank blank; emb (4 # 5, 3 # 5) blank blank].

(** A record with only its What column and one with only its Why
    column. *)
Definition angina_what_only : Item :=
  item "angina" "Angina is chest pain." EmptyString EmptyString EmptyString.

Definition cholesterol_why_only : Item :=
  item "cholesterol" EmptyString "Diet and genes raise cholesterol."
       EmptyString EmptyString.

Definition kb_mixed : @Embeddings east :=
  base [angina_what_only; cholesterol_why_only]
       [emb (7 # 25, 24 # 25) blank blank; emb (3 # 5, 4 # 5) blank blank].

(** A record with an empty What column. *)
Definition symptoms_only : Item :=
  item "angina" EmptyString EmptyString EmptyString "Chest tightness.".

(** A record far from every query: no similarity above 0.28. *)
Definition csv_far : @CsvBase east :=
  @Build_CsvBase east
    [csv_item "angina" "Angina is chest pain."]
    [emb (7 # 25, 24 # 25) [(0, 1)] [(7 # 25, 24 # 25)]].

Definition generator : Generator :=
  {| generate_response_with_gemini := fun _ => "Here is what I found." |}.

Definition eleven_inputs : list string :=
  ["football 1"; "football 2"; "football 3"; "football 4"; "football 5";
   "football 6"; "football 7"; "football 8"; "football 9"; "football 10";
   "football 11"].

End Demo.

(** ** The vocabulary of the specification *)

(** Lower-cased whitespace tokens of a text. *)
Definition tokens (s : string) : list string := Py.split (Py.lower s).

(** Two token lists have a common element. *)
Definition intersects (a b : list string) : bool :=
  existsb (fun w => existsb (String.eqb w) b) a.

(** The records whose trigger tokens meet the query tokens, in the
    order of the knowledge base. *)
Definition lexical_matches (query : string) (db : list Item) : list Item :=
  filter (fun item => intersects (tokens (trigger_word item)) (tokens query))
         db.

(** The highest of the three component scores among the records
    having some component at 0.65 or more (0 when there is none). *)
Definition best_strong `{EmbeddingModel} (query_embedding : vector)
    (embs : list ItemEmbeddings) : Q :=
  fold_left
    (fun best item_embeddings =>
       let t := trigger_score query_embedding item_embeddings in
       let s := max_synonym_score query_embedding item_embeddings in
       let k := max_keyword_score query_embedding item_embeddings in
       if is_strong t s k then Py.max2 best (Py.max3 t s k) else best)
    embs 0.

(** A record none of whose three components reaches 0.65. *)
Definition not_strong `{EmbeddingModel} (query_embedding : vector)
    (item_embeddings : ItemEmbeddings) : Prop :=
  is_strong (trigger_score query_embedding item_embeddings)
            (max_synonym_score query_embedding item_embeddings)
            (max_keyword_score query_embedding item_embeddings) = false.

(** Position of the first keyword, in list order, that occurs in the
    query. *)
Fixpoint first_keyword_position (query_lower : string)
    (keywords : list string) : option Z :=
  match keywords with
  | [] => None
  | keyword :: rest =>
      let position := Py.find query_lower (Py.lower keyword) in
      if (position =? -1)%Z then first_keyword_position query_lower rest
      else Some position
  end.

(** The intents having a keyword in the query, each with the position
    of its first matching keyword, in table order. *)
Definition keyword_hits (table : list (Intent * list string))
    (query_lower : string) : list (Z * Intent) :=
  flat_map
    (fun entry =>
       match first_keyword_position query_lower (snd entry) with
       | Some position => [(position, fst entry)]
       | None => []
       end)
    table.

(** The same hits restricted to the intents whose column of the record
    is non-empty, each paired with that column's text. *)
Definition answered_hits (table : list (Intent * list string))
    (query_lower : string) (item : Item) : list (Z * string) :=
  map (fun hit => (fst hit, column item (snd hit)))
      (filter (fun hit => Py.truthy (column item (snd hit)))
              (keyword_hits table query_lower)).

(** Ascending positions. *)
Definition by_position (a b : Z * string) : Prop := (fst a <= fst b)%Z.

(** The first intent of the table, in table order, whose column of the
    record is non-empty. *)
Fixpoint first_nonempty_column (table : list (Intent * list string))
    (item : Item) : option string :=
  match table with
  | [] => None
  | (c, _) :: rest =>
      if Py.truthy (column item c) then Some (column item c)
      else first_nonempty_column rest item
  end.

(** ** dict.py *)

(** [difflib.get_close_matches(word, word_set, n=3, cutoff=cutoff)]
    for the word set and cutoff in use. *)
Class CloseMatches : Type := {
  get_close_matches : string -> list string
}.

(** The float arithmetic of the match score, left abstract: the
    initial score 0, the score 1.0 of an exact match, the quotient of two
    lengths, the addition of 0.2, and the comparison [>]. *)
Class ScoreArith : Type := {
  score : Type;
  score_zero : score;
  score_one : score;
  length_ratio : nat -> nat -> score;
  add_bonus : score -> score;
  score_gt : score -> score -> bool
}.

Module Dict.
Section Defs.
Context {C : CloseMatches} {A : ScoreArith}.

(** [s.count(' ')] *)
Fixpoint count_spaces (s : string) : nat :=
  match s with
  | EmptyString => 0
  | String c s' =>
      if Ascii.eqb c " " then S (count_spaces s') else count_spaces s'
  end.

(** The loop over the matches of one combination; an exact match
    ends it. *)
Fixpoint scan_matches (combined_word : string) (matches : list string)
    (best : option string * score) : option string * score :=
  match matches with
  | [] => best
  | candidate :: rest =>
      if String.eqb candidate combined_word then (Some candidate, score_one)
      else
        let match_score :=
          length_ratio (String.length candidate)
                       (String.length combined_word) in
        let match_score :=
          if Py.contains candidate " " then add_bonus match_score
          else match_score in
        if score_gt match_score (snd best)
        then scan_matches combined_word rest (Some candidate, match_score)
        else scan_matches combined_word rest best
  end.

(** The loop [for j in range(2, 0, -1)] at the words [words[i:]]. *)
Definition best_match_at (remaining : list string) : option string :=
  let combined_two := Py.lower (Py.join " " (firstn 2 remaining)) in
  let best :=
    scan_matches combined_two (get_close_matches combined_two)
      (None, score_zero) in
  let combined_one := Py.lower (Py.join " " (firstn 1 remaining)) in
  let best :=
    scan_matches combined_one (get_close_matches combined_one) best in
  fst best.

(** The [while] loop over the words still to be read; every round
    reads at least one word, so the number of words is enough fuel. *)
Fixpoint correct_words (fuel : nat) (remaining : list string)
    : list string :=
  match fuel with
  | O => []
  | S fuel' =>
      match remaining with
      | [] => []
      | word :: _ =>
          match best_match_at remaining with
          | Some (String _ _ as best_match) =>
              best_match
              :: correct_words fuel'
                   (skipn (count_spaces best_match + 1) remaining)
          | _ => word :: correct_words fuel' (skipn 1 remaining)
          end
      end
  end.

Definition correct_spelling (text : string) : string :=
  let words := Py.split text in
  Py.join " " (correct_words (length words) words).

End Defs.
End Dict.

(** ** Vocabulary of the further properties *)

Section PassTwoVocabulary.
Context `{EmbeddingModel}.

(** The highest and the mean of the three component scores of a
    record, and whether some component reaches 0.65. *)
Definition record_max (query_embedding : vector)
    (item_embeddings : ItemEmbeddings) : Q :=
  Py.max3 (trigger_score query_embedding item_embeddings)
          (max_synonym_score query_embedding item_embeddings)
          (max_keyword_score query_embedding item_embeddings).

Definition record_avg (query_embedding : vector)
    (item_embeddings : ItemEmbeddings) : Q :=
  avg_score (trigger_score query_embedding item_embeddings)
            (max_synonym_score query_embedding item_embeddings)
            (max_keyword_score query_embedding item_embeddings).

Definition record_strong (query_embedding : vector)
    (item_embeddings : ItemEmbeddings) : bool :=
  is_strong (trigger_score query_embedding item_embeddings)
            (max_synonym_score query_embedding item_embeddings)
            (max_keyword_score query_embedding item_embeddings).

(** The strong records of a knowledge base, in its order. *)
Definition strong_records (query_embedding : vector) (db : list Item)
    (embs : list ItemEmbeddings) : list Item :=
  map fst (filter (fun entry => record_strong query_embedding (snd entry))
                  (combine db embs)).

(** One iteration of the scoring loop of response_generation.py on a
    record that is present in the database. *)
Definition list_step_on (query_embedding : vector)
    (st : ResponseGeneration.Pass2) (entry : Item * ItemEmbeddings)
    : ResponseGeneration.Pass2 :=
  let st1 :=
    if record_strong query_embedding (snd entry) then
      {| ResponseGeneration.best_match_score :=
           ResponseGeneration.best_match_score st;
         ResponseGeneration.best_max_match_score :=
           record_max query_embedding (snd entry);
         ResponseGeneration.best_match_response :=
           ResponseGeneration.best_match_response st;
         ResponseGeneration.best_max_match_response :=
           (ResponseGeneration.best_max_match_response st
            ++ [fst entry])%list |}
    else st in
  if Py.gtb (record_avg query_embedding (snd entry))
            (ResponseGeneration.best_match_score st1)
     && negb (record_strong query_embedding (snd entry))
  then
    {| ResponseGeneration.best_match_score :=
         record_avg query_embedding (snd entry);
       ResponseGeneration.best_max_match_score :=
         ResponseGeneration.best_max_match_score st1;
       ResponseGeneration.best_match_response :=
         (ResponseGeneration.best_match_response st1 ++ [fst entry])%list;
       ResponseGeneration.best_max_match_response :=
         ResponseGeneration.best_max_match_response st1 |}
  else st1.

(** The same for the single-record loop of analyse_dataframe.py. *)
Definition single_step_on (query_embedding : vector)
    (st : AnalyseDataframe.Pass2) (entry : Item * ItemEmbeddings)
    : AnalyseDataframe.Pass2 :=
  let st1 :=
    if record_strong query_embedding (snd entry) then
      {| AnalyseDataframe.best_match_score :=
           AnalyseDataframe.best_match_score st;
         AnalyseDataframe.best_max_match_score :=
           record_max query_embedding (snd entry);
         AnalyseDataframe.best_match_response :=
           AnalyseDataframe.best_match_response st;
         AnalyseDataframe.best_max_match_response := Some (fst entry) |}
    else st in
  if Py.gtb (record_avg query_embedding (snd entry))
            (AnalyseDataframe.best_match_score st1)
     && negb (record_strong query_embedding (snd entry))
  then
    {| AnalyseDataframe.best_match_score :=
         record_avg query_embedding (snd entry);
       AnalyseDataframe.best_max_match_score :=
         AnalyseDataframe.best_max_match_score st1;
       AnalyseDataframe.best_match_response := Some (fst entry);
       AnalyseDataframe.best_max_match_response :=
         AnalyseDataframe.best_max_match_response st1 |}
  else st1.

End PassTwoVocabulary.

(** What the running values of the list matcher satisfy at every point
    of the scan. *)
Definition pass2_inv (st : ResponseGeneration.Pass2) : Prop :=
  0 <= ResponseGeneration.best_match_score st
  /\ ResponseGeneration.best_match_score st < 65 # 100
  /\ (ResponseGeneration.best_max_match_response st = [] ->
      ResponseGeneration.best_max_match_score st = 0)
  /\ (ResponseGeneration.best_max_match_response st <> [] ->
      65 # 100 <= ResponseGeneration.best_max_match_score st)
  /\ (ResponseGeneration.best_match_response st = [] ->
      ResponseGeneration.best_match_score st = 0)
  /\ (ResponseGeneration.best_match_response st <> [] ->
      0 < ResponseGeneration.best_match_score st).

(** The last element of a list, if any. *)
Definition last_record {A : Type} (l : list A) : option A :=
  match rev l with
  | [] => None
  | x :: _ => Some x
  end.


(** The running values of the two matchers agree: same scores, and
    each response of the single-record matcher is the last record of the
    corresponding list. *)
Definition same_buckets (stl : ResponseGeneration.Pass2)
    (sts : AnalyseDataframe.Pass2) : Prop :=
  AnalyseDataframe.best_match_score sts
  = ResponseGeneration.best_match_score stl
  /\ AnalyseDataframe.best_max_match_score sts
     = ResponseGeneration.best_max_match_score stl
  /\ AnalyseDataframe.best_match_response sts
     = last_record (ResponseGeneration.best_match_response stl)
  /\ AnalyseDataframe.best_max_match_response sts
     = last_record (ResponseGeneration.best_max_match_response stl).

(** A text without whitespace, and a word: a non-empty such text. *)
Fixpoint no_space (w : string) : bool :=
  match w with
  | EmptyString => true
  | String c w' => negb (Py.isspace c) && no_space w'
  end.

Definition is_word (w : string) : bool := Py.truthy w && no_space w.

(** Further sample data. *)
Module Examples.

(** A weak record (similarity 0.6) followed by a strong one (0.96). *)
Definition kb_weak_then_strong : @Embeddings Demo.east :=
  Demo.base [Demo.cholesterol; Demo.angina]
    [Demo.emb (3 # 5, 4 # 5) Demo.blank Demo.blank;
     Demo.emb (24 # 25, 7 # 25) Demo.blank Demo.blank].

(** The base [Demo.csv] with another trigger vector (similarity 0). *)
Definition csv_other_trigger : @CsvBase Demo.east :=
  @Build_CsvBase Demo.east
    [Demo.csv_item "angina" "Angina is chest pain."]
    [Demo.emb (0, 1) [(7 # 25, 24 # 25)] [(3 # 5, 4 # 5)]].

(** A score arithmetic on rationals. *)
Definition rational_scores : ScoreArith :=
  {| score := Q;
     score_zero := 0;
     score_one := 1;
     length_ratio := fun a b => inject_Z (Z.of_nat a) / inject_Z (Z.of_nat b);
     add_bonus := fun s => s + (2 # 10);
     score_gt := Py.gtb |}.

(** A word set in which only "blood presure" has a close match, the
    three-word phrase "high blood pressure" (similarity ratio 26/32,
    returned at a cutoff of 0.8). *)
Definition phrase_matches : CloseMatches :=
  {| get_close_matches := fun word =>
       if String.eqb word "blood presure" then ["high blood pressure"]
       else [] |}.

End Examples.

(** * Theorems *)

(** ** Facts about the Python primitives *)

Lemma isspace_lower_char (c : ascii) :
  Py.isspace (Py.lower_char c) = Py.isspace c.
Proof.
  destruct c as [[] [] [] [] [] [] [] []]; reflexivity.
Qed.

Lemma lower_lstrip (s : string) :
  Py.lower (Py.lstrip s) = Py.lstrip (Py.lower s).
Proof.
  induction s as [|c s IH]; simpl; [reflexivity|].
  rewrite isspace_lower_char.
  destruct (Py.isspace c); [exact IH | reflexivity].
Qed.

Lemma lower_rstrip (s : string) :
  Py.lower (Py.rstrip s) = Py.rstrip (Py.lower s).
Proof.
  induction s as [|c s IH]; simpl; [reflexivity|].
  rewrite <- IH, isspace_lower_char.
  destruct (Py.rstrip s); simpl; [destruct (Py.isspace c)|]; reflexivity.
Qed.

Lemma lower_strip (s : string) :
  Py.lower (Py.strip s) = Py.strip (Py.lower s).
Proof.
  unfold Py.strip. now rewrite lower_rstrip, lower_lstrip.
Qed.

Lemma split_lstrip (s : string) : Py.split (Py.lstrip s) = Py.split s.
Proof.
  unfold Py.split.
  induction s as [|c s IH]; simpl; [reflexivity|].
  destruct (Py.isspace c) eqn:Hc; simpl; [exact IH | now rewrite Hc].
Qed.

Lemma split_from_rstrip (s cur : string) :
  Py.split_from cur (Py.rstrip s) = Py.split_from cur s.
Proof.
  revert cur; induction s as [|c s IH]; intros cur; simpl; [reflexivity|].
  destruct (Py.rstrip s) as [|a r] eqn:Hr.
  - destruct (Py.isspace c) eqn:Hc; simpl.
    + now rewrite <- IH.
    + now rewrite Hc, <- IH.
  - simpl. destruct (Py.isspace c) eqn:Hc.
    + now rewrite <- IH.
    + now rewrite <- IH.
Qed.

Lemma split_strip (s : string) : Py.split (Py.strip s) = Py.split s.
Proof.
  unfold Py.strip, Py.split at 1.
  rewrite split_from_rstrip. apply split_lstrip.
Qed.

(** The tokens the code computes from the query are the lower-cased
    whitespace tokens of the query. *)
Lemma query_words_tokens (query : string) :
  Py.split (Py.lower (Py.strip query)) = tokens query.
Proof.
  unfold tokens. now rewrite lower_strip, split_strip.
Qed.

Lemma skipn_nth_error {A : Type} (l : list A) (n : nat) (x : A) :
  nth_error l n = Some x -> skipn n l = x :: skipn (S n) l.
Proof.
  revert n; induction l as [|y l IH]; intros [|n] Hn; simpl in *;
    try discriminate.
  - now inversion Hn.
  - now apply IH.
Qed.

Lemma getitem_Ok {A : Type} (l : list A) (n : nat) :
  (n < length l)%nat ->
  exists x, nth_error l n = Some x /\ Py.getitem l n = Ok x.
Proof.
  intros Hn. unfold Py.getitem.
  destruct (nth_error l n) as [x|] eqn:Hx.
  - now exists x.
  - apply nth_error_None in Hx. lia.
Qed.

(** ** Pass 1 of the context matcher *)

Lemma common_words_intersects {A : Type} (P : string -> bool)
    (l : list string) (a b : A) :
  match filter P l with [] => a | _ :: _ => b end
  = if existsb P l then b else a.
Proof.
  induction l as [|w l IH]; simpl; [reflexivity|].
  destruct (P w); simpl; [reflexivity | exact IH].
Qed.

Section Pass1.
Context `{E : Embeddings}.

Lemma match_generator_filter (query_words : list string)
    (embs : list ItemEmbeddings) (index : nat) :
  (index + length embs <= length database)%nat ->
  ResponseGeneration.match_generator query_words index embs
  = Ok (filter
          (fun item => intersects (tokens (trigger_word item)) query_words)
          (firstn (length embs) (skipn index database))).
Proof.
  revert index; induction embs as [|e embs IH]; intros index Hlen;
    simpl in *; [reflexivity|].
  destruct (getitem_Ok database index) as (item & Hnth & Hget); [lia|].
  rewrite Hget; cbn [bind].
  rewrite IH by lia; cbn [bind].
  rewrite (skipn_nth_error _ _ _ Hnth); cbn [firstn filter].
  rewrite common_words_intersects.
  unfold intersects, tokens.
  now destruct (existsb _ (Py.split (Py.lower (trigger_word item)))).
Qed.

Lemma pass1_returns (query : string) (threshold : Q) :
  length db_embeddings = length database ->
  lexical_matches query database <> [] ->
  ResponseGeneration.find_best_context query threshold
  = Ok (Some (lexical_matches query database)).
Proof.
  intros Hlen Hne.
  unfold ResponseGeneration.find_best_context.
  rewrite query_words_tokens.
  rewrite match_generator_filter by lia.
  rewrite Hlen, firstn_all. simpl.
  fold (lexical_matches query database).
  destruct (lexical_matches query database); [congruence | reflexivity].
Qed.

(** Under the same invariant neither pass raises: the matcher always
    returns. *)
Lemma pass2_step_total (query_embedding : vector)
    (st : ResponseGeneration.Pass2) (index : nat)
    (item_embeddings : ItemEmbeddings) :
  (index < length database)%nat ->
  exists st',
    ResponseGeneration.pass2_step query_embedding st index item_embeddings
    = Ok st'.
Proof.
  intros Hlt. unfold ResponseGeneration.pass2_step.
  destruct (getitem_Ok database index Hlt) as (item & _ & Hget).
  rewrite Hget.
  destruct (is_strong _ _ _); cbn [bind];
    match goal with
    | |- context [if ?cond then _ else _] => destruct cond
    end; cbn [bind]; eexists; reflexivity.
Qed.

Lemma pass2_loop_total (query_embedding : vector)
    (embs : list ItemEmbeddings) (st : ResponseGeneration.Pass2)
    (index : nat) :
  (index + length embs <= length database)%nat ->
  exists st',
    ResponseGeneration.pass2_loop query_embedding st index embs = Ok st'.
Proof.
  revert st index; induction embs as [|e embs IH]; intros st index Hlen;
    cbn [ResponseGeneration.pass2_loop length] in *.
  - now exists st.
  - destruct (pass2_step_total query_embedding st index e) as (st1 & Hstep);
      [lia|].
    rewrite Hstep; cbn [bind]. apply IH. lia.
Qed.

Lemma find_best_context_total (query : string) (threshold : Q) :
  length db_embeddings = length database ->
  exists r, ResponseGeneration.find_best_context query threshold = Ok r.
Proof.
  intros Hlen. unfold ResponseGeneration.find_best_context.
  rewrite match_generator_filter by lia. cbn [bind].
  match goal with
  | |- context [match ?l with [] => _ | _ :: _ => _ end] => destruct l
  end.
  - destruct (pass2_loop_total (encode (Py.lower query)) db_embeddings
                ResponseGeneration.pass2_init 0) as (st & Hloop); [lia|].
    rewrite Hloop; cbn [bind]. eexists; reflexivity.
  - eexists; reflexivity.
Qed.

End Pass1.

(** C1. Whenever the lower-cased tokens of the query meet the
    lower-cased tokens of the trigger word of some record, the context
    matcher returns exactly the records with a common token, in the order
    of the knowledge base.  The value returned mentions no score: any
    other encoder, similarity, stored embeddings and threshold over the
    same records give the same answer. *)
Theorem pass1_lexical_precedence :
  forall (M : EmbeddingModel) (E : @Embeddings M) (query : string)
         (threshold : Q),
    length (@db_embeddings M E) = length (@database M E) ->
    lexical_matches query (@database M E) <> [] ->
    @ResponseGeneration.find_best_context M E query threshold
    = Ok (Some (lexical_matches query (@database M E)))
    /\ forall (M' : EmbeddingModel) (E' : @Embeddings M') (threshold' : Q),
         @database M' E' = @database M E ->
         length (@db_embeddings M' E') = length (@database M' E') ->
         @ResponseGeneration.find_best_context M' E' query threshold'
         = @ResponseGeneration.find_best_context M E query threshold.
Proof.
  intros M E query threshold Hlen Hne. split.
  - now apply pass1_returns.
  - intros M' E' threshold' Hdb Hlen'.
    rewrite (@pass1_returns M E query threshold Hlen Hne).
    rewrite <- Hdb in Hne |- *.
    now apply pass1_returns.
Qed.

Lemma pass1_lexical_precedence_witness :
  length (@db_embeddings _ Demo.kb) = length (@database _ Demo.kb)
  /\ lexical_matches "what is cholesterol and what is ANGINA"
       (@database _ Demo.kb) <> []
  /\ @ResponseGeneration.find_best_context _ Demo.kb
       "what is cholesterol and what is ANGINA" (3 # 10)
     = Ok (Some [Demo.angina; Demo.cholesterol]).
Proof.
  assert (Hne : lexical_matches "what is cholesterol and what is ANGINA"
                  (@database _ Demo.kb) <> []) by (vm_compute; discriminate).
  split; [reflexivity|]. split; [exact Hne|].
  exact (proj1 (pass1_lexical_precedence Demo.east Demo.kb
                  "what is cholesterol and what is ANGINA" (3 # 10)
                  eq_refl Hne)).
Defined.

(** ** The domain gate *)

Lemma any_ge_spec (threshold : Q) (l : list Q) :
  Py.any_ge threshold l = true
  <-> exists score, In score l /\ threshold <= score.
Proof.
  unfold Py.any_ge, Py.geb. rewrite existsb_exists.
  split; intros (score & Hin & Hle); exists score; split; trivial;
    now apply Qle_bool_iff.
Qed.

Lemma any_ge_antitone (t1 t2 : Q) (l : list Q) :
  t1 <= t2 -> Py.any_ge t2 l = true -> Py.any_ge t1 l = true.
Proof.
  intros Hle. rewrite !any_ge_spec.
  intros (score & Hin & Hs). exists score. split; trivial.
  now apply Qle_trans with t2.
Qed.

(** C8. The domain gate answers true exactly when some similarity
    between the encoded lower-cased query and a domain keyword embedding
    reaches the threshold; hence a query relevant at a threshold is
    relevant at every lower threshold.  Both copies of the gate
    (response_generation.py and Logic1_OnlyCSV.py) are covered. *)
Theorem domain_gate_monotone :
  forall (M : EmbeddingModel) (E : @Embeddings M) (B : @CsvBase M)
         (query : string) (threshold : Q),
    (ResponseGeneration.is_domain_relevant query threshold = true
     <-> exists score,
           In score (map (cosine_similarity (encode (Py.lower query)))
                         domain_embeddings)
           /\ threshold <= score)
    /\ (Logic1.is_domain_relevant query threshold = true
        <-> exists score,
              In score (map (cosine_similarity (encode (Py.lower query)))
                            (map encode Logic1.domain_keywords))
              /\ threshold <= score)
    /\ forall higher : Q,
         threshold <= higher ->
         (ResponseGeneration.is_domain_relevant query higher = true ->
          ResponseGeneration.is_domain_relevant query threshold = true)
         /\ (Logic1.is_domain_relevant query higher = true ->
             Logic1.is_domain_relevant query threshold = true).
Proof.
  intros M E B query threshold.
  unfold ResponseGeneration.is_domain_relevant, Logic1.is_domain_relevant,
    Logic1.domain_embeddings.
  split; [apply any_ge_spec|]. split; [apply any_ge_spec|].
  intros higher Hle. split; now apply any_ge_antitone.
Qed.

Lemma domain_gate_monotone_witness :
  (4 # 10) <= (6 # 10)
  /\ @ResponseGeneration.is_domain_relevant _ Demo.kb "heart" (6 # 10) = true
  /\ @ResponseGeneration.is_domain_relevant _ Demo.kb "heart" (4 # 10) = true.
Proof.
  assert (Hle : (4 # 10) <= (6 # 10)) by (vm_compute; discriminate).
  assert (Hrel : @ResponseGeneration.is_domain_relevant _ Demo.kb "heart"
                   (6 # 10) = true) by (vm_compute; reflexivity).
  split; [exact Hle|]. split; [exact Hrel|].
  destruct (domain_gate_monotone Demo.east Demo.kb Demo.csv "heart"
              (4 # 10)) as (_ & _ & Hmono).
  exact (proj1 (Hmono (6 # 10) Hle) Hrel).
Defined.

(** ** Spelling correction of short inputs *)

(** C10. A text of at most one whitespace-separated word is returned
    unchanged by [correct_spelling] (both copies).  Hence, in the
    orchestrator of Logic1_OnlyCSV.py, when the direct match of such an
    input fails, the retry is skipped (no second search, no
    "Corrected Input" message) and the answer is decided by the domain
    gate on the input itself. *)
Theorem single_word_skips_retry :
  forall (M : EmbeddingModel) (B : @CsvBase M) (Sp : SpellChecker)
         (text : string),
    (length (Py.split text) <= 1)%nat ->
    Logic1.correct_spelling text = text
    /\ MaxFromEachColumn.correct_spelling text = text
    /\ forall (threshold : Q) (direct : option string),
         Logic1.find_best_context text threshold = Ok direct ->
         truthy_opt direct = false ->
         Logic1.get_response text threshold
         = Ok (if Logic1.is_domain_relevant text (4 # 10)
               then (placeholder_response,
                     ["Direct Match"; "After Spell Correction";
                      "Checking Domain relevance";
                      "Prompt for Generative API: " ++ prompt_for text])
               else (refusal,
                     ["Direct Match"; "After Spell Correction";
                      "Checking Domain relevance"])).
Proof.
  intros M B Sp text Hlen.
  assert (Hguard : (1 <? length (Py.split text))%nat = false)
    by (apply Nat.ltb_ge; exact Hlen).
  assert (H1 : Logic1.correct_spelling text = text)
    by (unfold Logic1.correct_spelling; now rewrite Hguard).
  split; [exact H1|]. split.
  - unfold MaxFromEachColumn.correct_spelling. now rewrite Hguard.
  - intros threshold direct Hdirect Hfalsy.
    unfold Logic1.get_response.
    rewrite Hdirect; cbn [bind]. rewrite Hfalsy, H1, String.eqb_refl.
    cbn [negb]. unfold Logic1.gate.
    now destruct (Logic1.is_domain_relevant text (4 # 10)).
Qed.

Lemma single_word_skips_retry_witness :
  (length (Py.split "football") <= 1)%nat
  /\ @Logic1.correct_spelling Demo.checker "football" = "football"
  /\ @Logic1.get_response _ Demo.csv Demo.checker "football" (99 # 100)
     = Ok (placeholder_response,
           ["Direct Match"; "After Spell Correction";
            "Checking Domain relevance";
            "Prompt for Generative API: " ++ prompt_for "football"]).
Proof.
  assert (Hlen : (length (Py.split "football") <= 1)%nat)
    by (vm_compute; lia).
  destruct (single_word_skips_retry Demo.east Demo.csv Demo.checker
              "football" Hlen) as (Hid & _ & Hgate).
  split; [exact Hlen|]. split; [exact Hid|].
  exact (Hgate (99 # 100) None eq_refl eq_refl).
Defined.

(** ** Component scores in the matcher variants *)

Lemma max_from_each_column_scores `{EmbeddingModel}
    (query_embedding : vector) (item_embeddings : ItemEmbeddings) :
  MaxFromEachColumn.component_scores query_embedding item_embeddings
  = (cosine_similarity query_embedding (trigger_embedding item_embeddings),
     Py.max_or_zero (map (cosine_similarity query_embedding)
                         (synonyms_embeddings item_embeddings)),
     Py.max_or_zero (map (cosine_similarity query_embedding)
                         (keywords_embeddings item_embeddings))).
Proof. reflexivity. Qed.

(** C9 (defect). In Logic1_OnlyCSV.py the score named
    [max_trigger_score] is computed from the synonym embeddings: it always
    equals the synonym maximum and never looks at the trigger embedding.
    On a record whose trigger has similarity 0.96 and whose synonym has
    0.28 the code takes 0.28 as trigger score, and at threshold 0.7 the
    record is not returned. *)
Theorem logic1_trigger_score_is_synonym_score :
  (forall (M : EmbeddingModel) (query_embedding : vector)
          (item_embeddings : ItemEmbeddings),
      Logic1.component_scores query_embedding item_embeddings
      = (max_synonym_score query_embedding item_embeddings,
         max_synonym_score query_embedding item_embeddings,
         max_keyword_score query_embedding item_embeddings))
  /\ (let item_embeddings :=
        Demo.emb (24 # 25, 7 # 25) [(7 # 25, 24 # 25)] [(3 # 5, 4 # 5)] in
      let query_embedding := @encode Demo.east "angina" in
      cosine_similarity query_embedding (trigger_embedding item_embeddings)
      == 24 # 25
      /\ fst (fst (Logic1.component_scores query_embedding item_embeddings))
         == 7 # 25
      /\ @Logic1.find_best_context _ Demo.csv "angina" (7 # 10) = Ok None).
Proof.
  split.
  - intros M query_embedding item_embeddings.
    unfold Logic1.component_scores, max_synonym_score, max_keyword_score.
    now destruct (map (cosine_similarity query_embedding)
                      (synonyms_embeddings item_embeddings)).
  - cbv zeta. repeat split; vm_compute; reflexivity.
Qed.

(** ** The retry path of the orchestrator *)

Lemma scan_keywords_list (query_lower : string) (items : list Item)
    (c : Intent) (keywords : list string) :
  scan_keywords query_lower (PyList items) c keywords = Raise AttributeError
  \/ scan_keywords query_lower (PyList items) c keywords = Ok None.
Proof.
  induction keywords as [|keyword rest IH]; simpl; [now right|].
  destruct (Py.find query_lower (Py.lower keyword) =? -1)%Z;
    [exact IH | now left].
Qed.

Lemma scan_columns_list (query_lower : string) (items : list Item)
    (table : list (Intent * list string)) :
  scan_columns query_lower (PyList items) table [] false
  = Raise AttributeError
  \/ scan_columns query_lower (PyList items) table [] false = Ok ([], false).
Proof.
  induction table as [|[c keywords] rest IH]; simpl; [now right|].
  destruct (scan_keywords_list query_lower items c keywords) as [Hk|Hk];
    rewrite Hk; simpl; [now left | exact IH].
Qed.

Lemma match_columns_list_raises `{E : Embeddings} {Hp : Helpers}
    (query : string) (items : list Item) :
  ResponseGeneration.match_columns query (PyList items)
  = Raise AttributeError.
Proof.
  unfold ResponseGeneration.match_columns.
  destruct (scan_columns_list (correct_spelling (Py.lower query)) items
              ResponseGeneration.intent_words) as [Hs|Hs];
    rewrite Hs; reflexivity.
Qed.

(** Whenever the retry finds records, the orchestrator raises. *)
Lemma retry_path_raises `{E : Embeddings} {Hp : Helpers}
    (user_input : string) (threshold : Q) (item : Item) (items : list Item) :
  ResponseGeneration.find_best_context user_input threshold = Ok None ->
  correct_spelling user_input <> user_input ->
  ResponseGeneration.find_best_context (correct_spelling user_input) threshold
  = Ok (Some (item :: items)) ->
  ResponseGeneration.get_response user_input threshold
  = Raise AttributeError.
Proof.
  intros Hdirect Hdiff Hretry.
  unfold ResponseGeneration.get_response, ResponseGeneration.retry.
  rewrite Hdirect; cbn [bind].
  apply String.eqb_neq in Hdiff. rewrite Hdiff; cbn [negb].
  rewrite Hretry; cbn [bind].
  now rewrite match_columns_list_raises.
Qed.

(** C7 (defect). [match_columns] applied to a list of records, as the
    retry path of [get_response] applies it, always raises
    [AttributeError]; on the input "wat is angna", corrected to
    "what is angina", the orchestrator therefore raises instead of
    answering, while the same question asked without misspelling is
    answered by the direct path. *)
Theorem retry_path_attribute_error :
  (forall (M : EmbeddingModel) (E : @Embeddings M) (Hp : Helpers)
          (query : string) (items : list Item),
      ResponseGeneration.match_columns query (PyList items)
      = Raise AttributeError)
  /\ @correct_spelling Demo.speller "wat is angna" = "what is angina"
  /\ @ResponseGeneration.find_best_context _ Demo.kb "wat is angna" (3 # 10)
     = Ok None
  /\ @ResponseGeneration.find_best_context _ Demo.kb "what is angina" (3 # 10)
     = Ok (Some [Demo.angina])
  /\ @ResponseGeneration.get_response _ Demo.kb Demo.speller
       "wat is angna" (3 # 10)
     = Raise AttributeError
  /\ @ResponseGeneration.get_response _ Demo.kb Demo.speller
       "what is angina" (3 # 10)
     = Ok "Angina is chest pain.".
Proof.
  split.
  - intros M E Hp query items. apply match_columns_list_raises.
  - repeat split; vm_compute; reflexivity.
Qed.

(** ** The disclaimer of the direct path *)

(** The flag the direct path tests after its loop is the flag of the
    last record routed. *)
Lemma route_all_flag_is_last `{E : Embeddings} {Hp : Helpers}
    (user_input : string) (items : list Item) (last : Item)
    (acc out : list string) (flag0 flag : nat) :
  ResponseGeneration.route_all user_input (items ++ [last])%list acc flag0
  = Ok (out, flag) ->
  exists column_response,
    ResponseGeneration.match_columns user_input (PyDict last)
    = Ok (column_response, flag).
Proof.
  revert acc flag0; induction items as [|item items IH]; intros acc flag0;
    simpl.
  - destruct (ResponseGeneration.match_columns user_input (PyDict last))
      as [[column_response f]|e]; simpl; [|discriminate].
    intros Heq. inversion Heq; subst. now exists column_response.
  - destruct (ResponseGeneration.match_columns user_input (PyDict item))
      as [[column_response f]|e]; simpl; [|discriminate].
    apply IH.
Qed.

(** C5 (defect). For the query "why angina and cholesterol" the direct
    match returns two records; the first is routed by the weak-match
    default (flag 1), the second by its Why keyword (flag 0).  The two
    answers are joined by the blank-line separator, and no disclaimer is
    appended: only the flag of the last record is consulted. *)
Theorem disclaimer_follows_last_record_only :
  let query := "why angina and cholesterol" in
  @ResponseGeneration.find_best_context _ Demo.kb_mixed query (3 # 10)
  = Ok (Some [Demo.angina_what_only; Demo.cholesterol_why_only])
  /\ @ResponseGeneration.match_columns _ Demo.kb_mixed Demo.no_correction
       query (PyDict Demo.angina_what_only)
     = Ok ("Angina is chest pain.", 1%nat)
  /\ @ResponseGeneration.match_columns _ Demo.kb_mixed Demo.no_correction
       query (PyDict Demo.cholesterol_why_only)
     = Ok ("Diet and genes raise cholesterol.", 0%nat)
  /\ @ResponseGeneration.get_response _ Demo.kb_mixed Demo.no_correction
       query (3 # 10)
     = Ok ("Angina is chest pain." ++ ResponseGeneration.separator
           ++ "Diet and genes raise cholesterol.").
Proof.
  cbv zeta. repeat split; vm_compute; reflexivity.
Qed.

(** ** The conversation history *)

Section History.
Context `{B : CsvBase} {G : Generator}.

Lemma last_n_length {A : Type} (n : nat) (l : list A) :
  (length (Py.last_n n l) <= n)%nat.
Proof.
  unfold Py.last_n. rewrite length_skipn. lia.
Qed.

Lemma set_last_response_length (response : string)
    (h : list App3Japanese.Turn) :
  length (App3Japanese.set_last_response response h) = length h.
Proof.
  unfold App3Japanese.set_last_response.
  rewrite <- (length_rev h).
  destruct (rev h); simpl; [reflexivity|].
  now rewrite length_app, length_rev, Nat.add_comm.
Qed.

(** A call that finds a matching record leaves at most ten turns. *)
Lemma matched_call_bounds_history (input matched : string)
    (ch ch' : App3Japanese.ContextHistory) (threshold : Q)
    (response : string) :
  App3Japanese.find_best_context (Py.lower input) threshold
  = Ok (Some matched) ->
  Py.truthy matched = true ->
  existsb (String.eqb (Py.lower input)) App3Japanese.greetings = false ->
  App3Japanese.get_response input ch threshold = Ok (response, ch') ->
  (length (App3Japanese.history ch') <= 10)%nat.
Proof.
  intros Hfind Htruthy Hgreet.
  unfold App3Japanese.get_response.
  rewrite Hgreet, Hfind; cbn [bind].
  destruct matched as [|c m]; [discriminate|].
  match goal with
  | |- context [if ?cond then _ else _] => destruct cond eqn:Hlen
  end; intros Heq; inversion Heq; subst; clear Heq;
    cbn [App3Japanese.history] in *.
  - apply last_n_length.
  - apply Nat.ltb_ge in Hlen. exact Hlen.
Qed.

(** A call that finds no record appends one turn and truncates
    nothing. *)
Lemma unmatched_call_grows_history (input : string)
    (ch : App3Japanese.ContextHistory) (threshold : Q) :
  App3Japanese.find_best_context (Py.lower input) threshold = Ok None ->
  existsb (String.eqb (Py.lower input)) App3Japanese.greetings = false ->
  exists ch',
    App3Japanese.get_response input ch threshold
    = Ok (App3Japanese.fallback_response, ch')
    /\ length (App3Japanese.history ch')
       = S (length (App3Japanese.history ch)).
Proof.
  intros Hfind Hgreet.
  unfold App3Japanese.get_response.
  rewrite Hgreet, Hfind; cbn [bind].
  eexists; split; [reflexivity|].
  cbn [App3Japanese.history]. rewrite length_app. simpl. lia.
Qed.

End History.

(** C6 (defect). Eleven inputs that match no record, received in one
    session starting from the empty history, leave eleven turns in the
    history: the branch of [get_response] taken when nothing matches
    appends without truncating.  When every one of the same eleven inputs
    does match, the history keeps the last ten. *)
Theorem history_exceeds_ten_without_match :
  (exists ch,
      @App3Japanese.session _ Demo.csv_far Demo.generator
        Demo.eleven_inputs App3Japanese.empty_history = Ok ch
      /\ length (App3Japanese.history ch) = 11%nat
      /\ map App3Japanese.user_input (App3Japanese.history ch)
         = Demo.eleven_inputs)
  /\ (exists ch,
         @App3Japanese.session _ Demo.csv Demo.generator
           Demo.eleven_inputs App3Japanese.empty_history = Ok ch
         /\ length (App3Japanese.history ch) = 10%nat
         /\ map App3Japanese.user_input (App3Japanese.history ch)
            = tl Demo.eleven_inputs).
Proof.
  split; eexists; (split; [vm_compute; reflexivity|]);
    split; vm_compute; reflexivity.
Qed.

(** ** Pass 2 of the context matcher *)

Lemma strong_not_all_weak (t s k : Q) :
  is_strong t s k = true -> all_weak t s k = false.
Proof.
  unfold is_strong, all_weak, Py.geb, Py.ltb.
  destruct (Qle_bool (65 # 100) t), (Qle_bool (65 # 100) s),
    (Qle_bool (65 # 100) k); simpl; congruence.
Qed.

(** On a strong record the step stores that record and its highest
    component, whatever was stored before. *)
Lemma strong_step_overwrites `{E : Embeddings} (query_embedding : vector)
    (st : AnalyseDataframe.Pass2) (index : nat)
    (item_embeddings : ItemEmbeddings) (item : Item) :
  let t := trigger_score query_embedding item_embeddings in
  let s := max_synonym_score query_embedding item_embeddings in
  let k := max_keyword_score query_embedding item_embeddings in
  is_strong t s k = true ->
  nth_error database index = Some item ->
  AnalyseDataframe.pass2_step query_embedding st index item_embeddings
  = Ok {| AnalyseDataframe.best_match_score :=
            AnalyseDataframe.best_match_score st;
          AnalyseDataframe.best_max_match_score := Py.max3 t s k;
          AnalyseDataframe.best_match_response :=
            AnalyseDataframe.best_match_response st;
          AnalyseDataframe.best_max_match_response := Some item |}.
Proof.
  intros t s k Hstrong Hnth.
  unfold AnalyseDataframe.pass2_step, Py.getitem.
  fold t s k. rewrite Hstrong, Hnth; cbn [bind].
  rewrite (strong_not_all_weak _ _ _ Hstrong), andb_false_r.
  reflexivity.
Qed.

Section StrongBucket.
Context `{E : Embeddings}.

Lemma pass2_loop_app (query_embedding : vector) (st : AnalyseDataframe.Pass2)
    (index : nat) (a b : list ItemEmbeddings) :
  AnalyseDataframe.pass2_loop query_embedding st index (a ++ b)%list
  = (st' <- AnalyseDataframe.pass2_loop query_embedding st index a ;;
     AnalyseDataframe.pass2_loop query_embedding st' (index + length a) b).
Proof.
  revert st index; induction a as [|e a IH]; intros st index.
  - cbn [app AnalyseDataframe.pass2_loop bind length].
    now rewrite Nat.add_0_r.
  - cbn [app AnalyseDataframe.pass2_loop length].
    destruct (AnalyseDataframe.pass2_step query_embedding st index e)
      as [st1|err]; cbn [bind]; [|reflexivity].
    rewrite IH. now rewrite Nat.add_succ_comm.
Qed.

Lemma weak_step_keeps_strong (query_embedding : vector)
    (st st' : AnalyseDataframe.Pass2) (index : nat)
    (item_embeddings : ItemEmbeddings) :
  not_strong query_embedding item_embeddings ->
  AnalyseDataframe.pass2_step query_embedding st index item_embeddings
  = Ok st' ->
  AnalyseDataframe.best_max_match_score st'
  = AnalyseDataframe.best_max_match_score st
  /\ AnalyseDataframe.best_max_match_response st'
     = AnalyseDataframe.best_max_match_response st.
Proof.
  unfold not_strong, AnalyseDataframe.pass2_step. intros Hweak.
  rewrite Hweak; cbn [bind].
  match goal with
  | |- context [if ?cond then _ else _] => destruct cond
  end.
  - destruct (Py.getitem database index) as [item|err]; cbn [bind];
      intros Heq; inversion Heq; subst; now split.
  - intros Heq; inversion Heq; subst; now split.
Qed.

Lemma weak_loop_keeps_strong (query_embedding : vector)
    (embs : list ItemEmbeddings) (st st' : AnalyseDataframe.Pass2)
    (index : nat) :
  Forall (not_strong query_embedding) embs ->
  AnalyseDataframe.pass2_loop query_embedding st index embs = Ok st' ->
  AnalyseDataframe.best_max_match_score st'
  = AnalyseDataframe.best_max_match_score st
  /\ AnalyseDataframe.best_max_match_response st'
     = AnalyseDataframe.best_max_match_response st.
Proof.
  intros Hall; revert st index; induction Hall as [|e embs He Hall IH];
    intros st index; cbn [AnalyseDataframe.pass2_loop].
  - intros Heq; inversion Heq; subst; now split.
  - destruct (AnalyseDataframe.pass2_step query_embedding st index e)
      as [st1|err] eqn:Hstep; cbn [bind]; [|discriminate].
    intros Hloop.
    destruct (weak_step_keeps_strong _ _ _ _ _ He Hstep) as [Hs Hr].
    destruct (IH _ _ Hloop) as [Hs' Hr'].
    split; congruence.
Qed.

(** After the scan of analyse_dataframe.py the strong bucket holds the
    last strong record in scan order and its highest component, whatever
    the scores of the strong records before it. *)
Lemma last_strong_record_wins (query_embedding : vector)
    (before after : list ItemEmbeddings) (item_embeddings : ItemEmbeddings)
    (item : Item) (st0 st : AnalyseDataframe.Pass2) :
  is_strong (trigger_score query_embedding item_embeddings)
            (max_synonym_score query_embedding item_embeddings)
            (max_keyword_score query_embedding item_embeddings) = true ->
  Forall (not_strong query_embedding) after ->
  nth_error database (length before) = Some item ->
  AnalyseDataframe.pass2_loop query_embedding st0 0
    (before ++ item_embeddings :: after)%list = Ok st ->
  AnalyseDataframe.best_max_match_score st
  = Py.max3 (trigger_score query_embedding item_embeddings)
            (max_synonym_score query_embedding item_embeddings)
            (max_keyword_score query_embedding item_embeddings)
  /\ AnalyseDataframe.best_max_match_response st = Some item.
Proof.
  intros Hstrong Hafter Hnth. rewrite pass2_loop_app.
  destruct (AnalyseDataframe.pass2_loop query_embedding st0 0 before)
    as [st1|err]; cbn [bind]; [|discriminate].
  cbn [AnalyseDataframe.pass2_loop Nat.add].
  rewrite (strong_step_overwrites query_embedding st1 (length before)
             item_embeddings item Hstrong Hnth); cbn [bind].
  intros Hloop.
  destruct (weak_loop_keeps_strong _ _ _ _ _ Hafter Hloop) as [Hs Hr].
  now rewrite Hs, Hr.
Qed.

End StrongBucket.

(** C2 (defect). Two records are strong for the query "heart pain":
    the first with score 0.96, the second with 0.8.  The highest strong
    score is 0.96, but after the scan the code holds 0.8, the score of the
    last strong record; the single-record matcher of analyse_dataframe.py
    returns the second record, and the list matcher of
    response_generation.py returns both. *)
Theorem strong_bucket_keeps_last_record :
  let query_embedding := @encode Demo.east "heart pain" in
  best_strong query_embedding (@db_embeddings _ Demo.kb_strong) == 24 # 25
  /\ (exists st,
        @AnalyseDataframe.pass2_loop _ Demo.kb_strong query_embedding
          AnalyseDataframe.pass2_init 0 (@db_embeddings _ Demo.kb_strong)
        = Ok st
        /\ AnalyseDataframe.best_max_match_score st == 4 # 5
        /\ AnalyseDataframe.best_max_match_response st
           = Some Demo.cholesterol)
  /\ @AnalyseDataframe.find_best_context _ Demo.kb_strong
       "heart pain" (3 # 10)
     = Ok (Some Demo.cholesterol)
  /\ @ResponseGeneration.find_best_context _ Demo.kb_strong
       "heart pain" (3 # 10)
     = Ok (Some [Demo.angina; Demo.cholesterol]).
Proof.
  cbv zeta. split; [vm_compute; reflexivity|]. split.
  - eexists. split; [vm_compute; reflexivity|].
    split; vm_compute; reflexivity.
  - split; vm_compute; reflexivity.
Qed.

(** ** Sorting by position *)

Lemma insert_by_position_perm (x : Z * string) (l : list (Z * string)) :
  Permutation (insert_by_position x l) (x :: l).
Proof.
  induction l as [|y l IH]; simpl; [apply Permutation_refl|].
  destruct (fst x <? fst y)%Z; [apply Permutation_refl|].
  apply perm_trans with (y :: x :: l); [now apply perm_skip | apply perm_swap].
Qed.

Lemma fold_insert_perm (l acc : list (Z * string)) :
  Permutation (fold_left (fun a x => insert_by_position x a) l acc)
              (acc ++ l)%list.
Proof.
  revert acc; induction l as [|x l IH]; intros acc; simpl.
  - rewrite app_nil_r. apply Permutation_refl.
  - eapply perm_trans; [apply IH|].
    eapply perm_trans;
      [apply Permutation_app_tail, insert_by_position_perm|].
    simpl. apply Permutation_cons_app. apply Permutation_refl.
Qed.

Lemma sort_by_position_perm (l : list (Z * string)) :
  Permutation (sort_by_position l) l.
Proof.
  apply (fold_insert_perm l []).
Qed.

Lemma insert_by_position_Forall (P : Z * string -> Prop) (x : Z * string)
    (l : list (Z * string)) :
  P x -> Forall P l -> Forall P (insert_by_position x l).
Proof.
  intros Hx Hl.
  apply (Permutation_Forall
           (Permutation_sym (insert_by_position_perm x l))).
  now constructor.
Qed.

Lemma insert_by_position_sorted (x : Z * string) (l : list (Z * string)) :
  StronglySorted by_position l ->
  StronglySorted by_position (insert_by_position x l).
Proof.
  induction 1 as [|y l Hsorted IH Hall]; simpl.
  - repeat constructor.
  - destruct (fst x <? fst y)%Z eqn:Hlt.
    + apply Z.ltb_lt in Hlt. constructor.
      * now constructor.
      * constructor; [unfold by_position; lia|].
        eapply Forall_impl; [|exact Hall].
        unfold by_position; intros z Hz; lia.
    + apply Z.ltb_ge in Hlt. constructor; [exact IH|].
      apply insert_by_position_Forall; trivial.
Qed.

Lemma sort_by_position_sorted (l : list (Z * string)) :
  StronglySorted by_position (sort_by_position l).
Proof.
  unfold sort_by_position.
  assert (Hgen : forall acc, StronglySorted by_position acc ->
            StronglySorted by_position
              (fold_left (fun a x => insert_by_position x a) l acc)).
  { induction l as [|x l IH]; intros acc Hacc; simpl; [exact Hacc|].
    apply IH. now apply insert_by_position_sorted. }
  apply Hgen. constructor.
Qed.

(** In a list sorted by position, an element with a smaller position
    stands before one with a larger position. *)
Lemma sorted_earlier_first (l : list (Z * string)) (a b : Z * string) :
  StronglySorted by_position l -> In a l -> In b l ->
  (fst a < fst b)%Z ->
  exists l1 l2 l3, l = (l1 ++ a :: l2 ++ b :: l3)%list.
Proof.
  induction 1 as [|y l Hsorted IH Hall]; intros Ha Hb Hlt; [contradiction|].
  destruct Ha as [Ha|Ha].
  - subst y. destruct Hb as [Hb|Hb]; [subst; lia|].
    destruct (in_split _ _ Hb) as (l2 & l3 & Heq).
    exists [], l2, l3. now rewrite Heq.
  - destruct Hb as [Hb|Hb].
    + subst y. rewrite Forall_forall in Hall.
      specialize (Hall a Ha). unfold by_position in Hall. lia.
    + destruct (IH Ha Hb Hlt) as (l1 & l2 & l3 & Heq).
      exists (y :: l1), l2, l3. now rewrite Heq.
Qed.

(** ** Intent routing of one record *)

Lemma scan_keywords_dict (query_lower : string) (item : Item) (c : Intent)
    (keywords : list string) :
  scan_keywords query_lower (PyDict item) c keywords
  = Ok (if Py.truthy (column item c)
        then option_map (fun position => (position, column item c))
                        (first_keyword_position query_lower keywords)
        else None).
Proof.
  induction keywords as [|keyword rest IH];
    cbn [scan_keywords first_keyword_position py_get bind option_map].
  - now destruct (Py.truthy (column item c)).
  - destruct (Py.find query_lower (Py.lower keyword) =? -1)%Z; [exact IH|].
    cbn [option_map].
    destruct (Py.truthy (column item c)) eqn:Ht; [reflexivity|].
    rewrite IH. try rewrite Ht. reflexivity.
Qed.

Lemma answered_hits_cons (c : Intent) (keywords : list string)
    (table : list (Intent * list string)) (query_lower : string)
    (item : Item) :
  answered_hits ((c, keywords) :: table) query_lower item
  = ((if Py.truthy (column item c)
      then match first_keyword_position query_lower keywords with
           | Some position => [(position, column item c)]
           | None => []
           end
      else []) ++ answered_hits table query_lower item)%list.
Proof.
  unfold answered_hits, keyword_hits. cbn [flat_map fst snd].
  rewrite filter_app, map_app. f_equal.
  destruct (first_keyword_position query_lower keywords); simpl;
    now destruct (Py.truthy (column item c)).
Qed.

Lemma scan_columns_dict (query_lower : string) (item : Item)
    (table : list (Intent * list string)) (acc : list (Z * string))
    (found : bool) :
  scan_columns query_lower (PyDict item) table acc found
  = Ok ((acc ++ answered_hits table query_lower item)%list,
        found || Py.truthy_list (answered_hits table query_lower item)).
Proof.
  revert acc found; induction table as [|[c keywords] rest IH];
    intros acc found.
  - simpl. now rewrite app_nil_r, orb_false_r.
  - cbn [scan_columns]. rewrite scan_keywords_dict, answered_hits_cons.
    destruct (Py.truthy (column item c));
      [destruct (first_keyword_position query_lower keywords)|];
      cbn [bind option_map]; rewrite IH; cbn [app Py.truthy_list].
    + now rewrite <- app_assoc, orb_true_r.
    + reflexivity.
    + reflexivity.
Qed.

Lemma sort_by_position_cons (h : Z * string) (hits : list (Z * string)) :
  exists h' hits', sort_by_position (h :: hits) = h' :: hits'.
Proof.
  destruct (sort_by_position (h :: hits)) as [|h' hits'] eqn:Hs;
    [|now exists h', hits'].
  pose proof (sort_by_position_perm (h :: hits)) as Hp.
  rewrite Hs in Hp. apply Permutation_nil in Hp. discriminate.
Qed.

Section Routing.
Context `{E : Embeddings} {Hp : Helpers}.

(** What [match_columns] of response_generation.py computes on one
    record. *)
Lemma match_columns_dict (query : string) (item : Item) :
  ResponseGeneration.match_columns query (PyDict item)
  = match answered_hits ResponseGeneration.intent_words
            (correct_spelling (Py.lower query)) item with
    | [] =>
        if Py.truthy (col_What item) then Ok (col_What item, 1%nat)
        else
          value <- fallback_column (correct_spelling (Py.lower query))
                     (PyDict item) ;;
          Ok (value, 0%nat)
    | h :: hits =>
        Ok (Py.join " " (map snd (sort_by_position (h :: hits))), 0%nat)
    end.
Proof.
  unfold ResponseGeneration.match_columns.
  rewrite scan_columns_dict. cbn [bind app orb].
  destruct (answered_hits ResponseGeneration.intent_words
              (correct_spelling (Py.lower query)) item) as [|h hits].
  - unfold ResponseGeneration.intent_words at 1.
    cbn [add_default Py.truthy_list negb py_get bind column].
    destruct (Py.truthy (col_What item)) eqn:Ht.
    + destruct (col_What item); [discriminate | reflexivity].
    + reflexivity.
  - unfold ResponseGeneration.intent_words at 1.
    cbn [add_default Py.truthy_list negb bind].
    destruct (sort_by_position_cons h hits) as (h' & hits' & Hs).
    rewrite Hs. reflexivity.
Qed.

End Routing.

(** ** Substring search *)

Lemma string_app_assoc (a b c : string) : (a ++ b) ++ c = a ++ b ++ c.
Proof.
  induction a as [|x a IH]; simpl; [reflexivity | now rewrite IH].
Qed.

Lemma prefix_app (sub rest : string) : prefix sub (sub ++ rest) = true.
Proof.
  induction sub as [|x sub IH]; simpl; [now destruct rest|].
  destruct (ascii_dec x x); [exact IH | congruence].
Qed.

Lemma find_from_unfold (i : Z) (sub s : string) :
  Py.find_from i sub s
  = if prefix sub s then i
    else match s with
         | EmptyString => (-1)%Z
         | String _ s' => Py.find_from (i + 1)%Z sub s'
         end.
Proof. now destruct s. Qed.

(** A text that contains [sub] after the prefix [a] is found, at an
    index not below the starting index. *)
Lemma find_from_occurs (a sub rest : string) (i : Z) :
  (i <= Py.find_from i sub (a ++ sub ++ rest))%Z.
Proof.
  revert i; induction a as [|x a IH]; intros i.
  - cbn [append]. rewrite find_from_unfold, prefix_app. lia.
  - cbn [append Py.find_from].
    destruct (prefix sub (String x (a ++ sub ++ rest))); [lia|].
    specialize (IH (i + 1)%Z). lia.
Qed.

Lemma first_keyword_position_head (query_lower keyword : string)
    (rest : list string) :
  Py.find query_lower (Py.lower keyword) <> (-1)%Z ->
  first_keyword_position query_lower (keyword :: rest)
  = Some (Py.find query_lower (Py.lower keyword)).
Proof.
  intros Hfound. cbn [first_keyword_position].
  apply Z.eqb_neq in Hfound. now rewrite Hfound.
Qed.

Lemma in_answered_hits (table : list (Intent * list string))
    (query_lower : string) (item : Item) (c : Intent)
    (keywords : list string) (position : Z) :
  In (c, keywords) table ->
  first_keyword_position query_lower keywords = Some position ->
  Py.truthy (column item c) = true ->
  In (position, column item c) (answered_hits table query_lower item).
Proof.
  intros Hin Hpos Htruthy. unfold answered_hits.
  apply (in_map (fun hit => (fst hit, column item (snd hit)))
                _ (position, c)).
  apply filter_In. split; [|exact Htruthy].
  unfold keyword_hits. apply in_flat_map.
  exists (c, keywords). split; [exact Hin|].
  cbn [fst snd]. rewrite Hpos. now left.
Qed.

(** In the text "why does X happen and what is X" the word "why" is
    found at index 0 and the word "what" at a later index. *)
Lemma why_what_positions (x : string) :
  let query_lower := "why does " ++ x ++ " happen and what is " ++ x in
  Py.find query_lower "why" = 0%Z
  /\ (0 < Py.find query_lower "what")%Z.
Proof.
  cbv zeta. split; [reflexivity|].
  assert (Hshape : "hy does " ++ x ++ " happen and what is " ++ x
                   = ("hy does " ++ x ++ " happen and ") ++ "what"
                     ++ " is " ++ x).
  { rewrite !string_app_assoc. reflexivity. }
  unfold Py.find.
  change ("why does " ++ x ++ " happen and what is " ++ x)
    with (String "w" ("hy does " ++ x ++ " happen and what is " ++ x)).
  rewrite find_from_unfold.
  replace (prefix "what"
             (String "w" ("hy does " ++ x ++ " happen and what is " ++ x)))
    with false by reflexivity.
  rewrite Hshape.
  pose proof (find_from_occurs ("hy does " ++ x ++ " happen and ")
                "what" (" is " ++ x) (0 + 1)%Z).
  lia.
Qed.

(** ** Order of the intent columns in the answer *)

Section RoutingOrder.
Context `{E : Embeddings} {Hp : Helpers}.

Lemma routed_by_position (query : string) (item : Item) :
  let hits :=
    answered_hits ResponseGeneration.intent_words
      (correct_spelling (Py.lower query)) item in
  hits <> [] ->
  ResponseGeneration.match_columns query (PyDict item)
  = Ok (Py.join " " (map snd (sort_by_position hits)), 0%nat).
Proof.
  cbv zeta. intros Hne. rewrite match_columns_dict.
  destruct (answered_hits ResponseGeneration.intent_words
              (correct_spelling (Py.lower query)) item);
    [congruence | reflexivity].
Qed.

Lemma why_before_what (query : string) (item : Item) (x : string) :
  correct_spelling (Py.lower query)
  = "why does " ++ x ++ " happen and what is " ++ x ->
  Py.truthy (col_Why item) = true ->
  Py.truthy (col_What item) = true ->
  exists before between after,
    ResponseGeneration.match_columns query (PyDict item)
    = Ok (Py.join " "
            (before ++ col_Why item :: between
                    ++ col_What item :: after)%list,
          0%nat).
Proof.
  intros Hq Hwhy Hwhat.
  destruct (why_what_positions x) as [Hp0 Hp1].
  set (hits := answered_hits ResponseGeneration.intent_words
                 (correct_spelling (Py.lower query)) item).
  assert (Hin_why : In (0%Z, col_Why item) hits).
  { unfold hits. rewrite Hq.
    apply (in_answered_hits _ _ item Why
             (snd (nth 2 ResponseGeneration.intent_words (Why, [])))).
    - cbn. tauto.
    - cbn [nth ResponseGeneration.intent_words snd].
      rewrite first_keyword_position_head;
        change (Py.lower "Why") with "why"; rewrite Hp0;
        [reflexivity | discriminate].
    - exact Hwhy. }
  assert (Hin_what :
            In (Py.find ("why does " ++ x ++ " happen and what is " ++ x)
                        "what", col_What item) hits).
  { unfold hits. rewrite Hq.
    apply (in_answered_hits _ _ item What
             (snd (nth 0 ResponseGeneration.intent_words (What, [])))).
    - cbn. tauto.
    - cbn [nth ResponseGeneration.intent_words snd].
      rewrite first_keyword_position_head;
        change (Py.lower "What") with "what"; [reflexivity | lia].
    - exact Hwhat. }
  assert (Hne : hits <> []) by (intros Hnil; now rewrite Hnil in Hin_why).
  rewrite (routed_by_position query item Hne). fold hits.
  destruct (sorted_earlier_first (sort_by_position hits)
              (0%Z, col_Why item)
              (Py.find ("why does " ++ x ++ " happen and what is " ++ x)
                       "what", col_What item))
    as (l1 & l2 & l3 & Hsplit).
  - apply sort_by_position_sorted.
  - apply (Permutation_in _ (Permutation_sym (sort_by_position_perm hits))).
    exact Hin_why.
  - apply (Permutation_in _ (Permutation_sym (sort_by_position_perm hits))).
    exact Hin_what.
  - cbn [fst]. exact Hp1.
  - exists (map snd l1), (map snd l2), (map snd l3).
    rewrite Hsplit, map_app. cbn [map]. rewrite map_app. reflexivity.
Qed.

End RoutingOrder.

(** C3, as stated, fails: in "why do it" two intents have a keyword
    ("why" for Why, "do" for How), the record has neither column, and
    the router answers with the What column and raises the weak-match
    flag instead of returning the empty concatenation. *)
Lemma intent_order_counterexample :
  let query := "why do it" in
  let item := Demo.angina_what_only in
  let query_lower := @correct_spelling Demo.no_correction (Py.lower query) in
  keyword_hits ResponseGeneration.intent_words query_lower
  = [(0%Z, Why); (4%Z, How)]
  /\ Py.join " "
       (map snd
          (sort_by_position
             (answered_hits ResponseGeneration.intent_words
                query_lower item)))
     = EmptyString
  /\ @ResponseGeneration.match_columns _ Demo.kb Demo.no_correction
       query (PyDict item)
     = Ok ("Angina is chest pain.", 1%nat)
  /\ forall flag : nat,
       @ResponseGeneration.match_columns _ Demo.kb Demo.no_correction
         query (PyDict item)
       <> Ok (Py.join " "
                (map snd
                   (sort_by_position
                      (answered_hits ResponseGeneration.intent_words
                         query_lower item))),
              flag).
Proof.
  cbv zeta. repeat split; try (vm_compute; reflexivity).
  intros flag. vm_compute. discriminate.
Qed.

(** C3, amended. When two or more intents have a keyword in the
    normalised query and at least one of them has a non-empty column in
    the record, the answer is the concatenation, with single spaces, of
    the non-empty columns of those intents, in ascending order of the
    position of the first matching keyword of each intent (the first
    keyword, in table order, that occurs), and the weak-match flag is not
    raised.  For a normalised query "why does X happen and what is X" and
    a record with Why and What columns, the Why text comes before the
    What text. *)
Theorem intent_columns_in_query_order :
  forall (M : EmbeddingModel) (E : @Embeddings M) (Hp : Helpers)
         (query : string) (item : Item),
    let query_lower := correct_spelling (Py.lower query) in
    let hits :=
      answered_hits ResponseGeneration.intent_words query_lower item in
    ((2 <= length (keyword_hits ResponseGeneration.intent_words
                     query_lower))%nat ->
     hits <> [] ->
     ResponseGeneration.match_columns query (PyDict item)
     = Ok (Py.join " " (map snd (sort_by_position hits)), 0%nat)
     /\ Permutation (sort_by_position hits) hits
     /\ StronglySorted by_position (sort_by_position hits))
    /\ (forall x : string,
          query_lower = "why does " ++ x ++ " happen and what is " ++ x ->
          Py.truthy (col_Why item) = true ->
          Py.truthy (col_What item) = true ->
          exists before between after,
            ResponseGeneration.match_columns query (PyDict item)
            = Ok (Py.join " "
                    (before ++ col_Why item :: between
                            ++ col_What item :: after)%list,
                  0%nat)).
Proof.
  intros M E Hp query item query_lower hits. split.
  - intros _ Hne. split; [now apply routed_by_position|].
    split; [apply sort_by_position_perm | apply sort_by_position_sorted].
  - intros x. apply why_before_what.
Qed.

Lemma intent_columns_in_query_order_witness :
  let query := "why does angina happen and what is angina" in
  (2 <= length (keyword_hits ResponseGeneration.intent_words
                  (@correct_spelling Demo.no_correction (Py.lower query))))%nat
  /\ @ResponseGeneration.match_columns _ Demo.kb Demo.no_correction
       query (PyDict Demo.angina)
     = Ok ("It signals a risk of heart attack. Manage stress. Angina is chest pain.",
           0%nat).
Proof.
  cbv zeta.
  assert (Htwo :
    (2 <= length (keyword_hits ResponseGeneration.intent_words
                    (@correct_spelling Demo.no_correction
                       (Py.lower "why does angina happen and what is angina"))))%nat)
    by (vm_compute; lia).
  split; [exact Htwo|].
  refine (proj1 (proj1 (intent_columns_in_query_order Demo.east Demo.kb
                          Demo.no_correction
                          "why does angina happen and what is angina"
                          Demo.angina) Htwo _)).
  vm_compute. discriminate.
Defined.

(** ** The weak-match default *)

(** C4, as stated, fails: the query "angina" holds no intent keyword
    and the record has an empty What column and a Symptoms text.  The
    first non-empty column in table order is Symptoms, but the router
    goes to the embedding fallback, which here selects the empty What
    column, and the flag stays 0. *)
Lemma weak_match_counterexample :
  let query := "angina" in
  let item := Demo.symptoms_only in
  let query_lower := @correct_spelling Demo.no_correction (Py.lower query) in
  keyword_hits ResponseGeneration.intent_words query_lower = []
  /\ first_nonempty_column ResponseGeneration.intent_words item
     = Some "Chest tightness."
  /\ @ResponseGeneration.match_columns _ Demo.kb Demo.no_correction
       query (PyDict item)
     = Ok (EmptyString, 0%nat).
Proof.
  cbv zeta. repeat split; vm_compute; reflexivity.
Qed.

Lemma no_keyword_no_answered_hit (table : list (Intent * list string))
    (query_lower : string) (item : Item) :
  keyword_hits table query_lower = [] ->
  answered_hits table query_lower item = [].
Proof.
  intros Hnone. unfold answered_hits. now rewrite Hnone.
Qed.

(** C4, amended. When no intent keyword occurs in the normalised
    query, the router returns the column of the first intent of the table
    (What) if that column is non-empty, and raises the weak-match flag;
    if that column is empty the answer comes from the embedding fallback
    and the flag is not raised.  In every case the flag is raised exactly
    when the default was taken: no intent with a non-empty column has a
    keyword in the query, and the What column is non-empty. *)
Theorem weak_match_default_is_first_column :
  forall (M : EmbeddingModel) (E : @Embeddings M) (Hp : Helpers)
         (query : string) (item : Item),
    let query_lower := correct_spelling (Py.lower query) in
    (keyword_hits ResponseGeneration.intent_words query_lower = [] ->
     (Py.truthy (col_What item) = true ->
      ResponseGeneration.match_columns query (PyDict item)
      = Ok (col_What item, 1%nat))
     /\ (Py.truthy (col_What item) = false ->
         ResponseGeneration.match_columns query (PyDict item)
         = (value <- fallback_column query_lower (PyDict item) ;;
            Ok (value, 0%nat))))
    /\ (forall (answer : string) (flag : nat),
          ResponseGeneration.match_columns query (PyDict item)
          = Ok (answer, flag) ->
          (flag = 1%nat
           <-> answered_hits ResponseGeneration.intent_words
                 query_lower item = []
               /\ Py.truthy (col_What item) = true)).
Proof.
  intros M E Hp query item query_lower. split.
  - intros Hnone. rewrite match_columns_dict. fold query_lower.
    rewrite (no_keyword_no_answered_hit _ _ item Hnone).
    split; intros Ht; now rewrite Ht.
  - intros answer flag. rewrite match_columns_dict. fold query_lower.
    destruct (answered_hits ResponseGeneration.intent_words
                query_lower item) as [|h hits].
    + destruct (Py.truthy (col_What item)).
      * intros Heq; inversion Heq; subst. tauto.
      * destruct (fallback_column query_lower (PyDict item));
          cbn [bind]; intros Heq; inversion Heq; subst.
        split; [discriminate | intros [_ Hf]; discriminate].
    + intros Heq; inversion Heq; subst.
      split; [discriminate | intros [Hf _]; discriminate].
Qed.

Lemma weak_match_default_is_first_column_witness :
  keyword_hits ResponseGeneration.intent_words
    (@correct_spelling Demo.no_correction (Py.lower "Angina")) = []
  /\ Py.truthy (col_What Demo.angina) = true
  /\ @ResponseGeneration.match_columns _ Demo.kb Demo.no_correction
       "Angina" (PyDict Demo.angina)
     = Ok ("Angina is chest pain.", 1%nat).
Proof.
  assert (Hnone :
    keyword_hits ResponseGeneration.intent_words
      (@correct_spelling Demo.no_correction (Py.lower "Angina")) = [])
    by (vm_compute; reflexivity).
  split; [exact Hnone|]. split; [reflexivity|].
  exact (proj1 (proj1 (weak_match_default_is_first_column Demo.east Demo.kb
                         Demo.no_correction "Angina" Demo.angina) Hnone)
           eq_refl).
Defined.

(** ** The router of analyse_dataframe.py *)

(** The flagless copy of the router orders its answer in the same
    way, over its own keyword table. *)
Lemma analyse_dataframe_routed_by_position `{E : Embeddings} {Hp : Helpers}
    (query : string) (item : Item) :
  let hits :=
    answered_hits AnalyseDataframe.intent_words
      (correct_spelling (Py.lower query)) item in
  hits <> [] ->
  AnalyseDataframe.match_columns query (PyDict item)
  = Ok (Py.join " " (map snd (sort_by_position hits))).
Proof.
  cbv zeta. intros Hne.
  unfold AnalyseDataframe.match_columns.
  rewrite scan_columns_dict. cbn [bind app orb].
  destruct (answered_hits AnalyseDataframe.intent_words
              (correct_spelling (Py.lower query)) item) as [|h hits];
    [congruence|].
  unfold AnalyseDataframe.intent_words at 1.
  cbn [add_default Py.truthy_list negb bind].
  destruct (sort_by_position_cons h hits) as (h' & hits' & Hs).
  rewrite Hs. reflexivity.
Qed.

(** * Further properties of the code *)

(** ** Comparisons of scores *)

Lemma geb_true (a b : Q) : Py.geb a b = true <-> b <= a.
Proof. unfold Py.geb. apply Qle_bool_iff. Qed.

Lemma ltb_true (a b : Q) : Py.ltb a b = true <-> a < b.
Proof.
  unfold Py.ltb. rewrite negb_true_iff. split.
  - intros Hf. apply Qnot_le_lt. intros Hle.
    apply Qle_bool_iff in Hle. congruence.
  - intros Hlt. destruct (Qle_bool b a) eqn:Hb; [|reflexivity].
    apply Qle_bool_iff in Hb. lra.
Qed.

Lemma gtb_true (a b : Q) : Py.gtb a b = true <-> b < a.
Proof. apply (ltb_true b a). Qed.

Lemma ltb_false (a b : Q) : Py.ltb a b = false <-> b <= a.
Proof.
  unfold Py.ltb. rewrite negb_false_iff. apply Qle_bool_iff.
Qed.

Lemma gtb_false (a b : Q) : Py.gtb a b = false <-> a <= b.
Proof. apply (ltb_false b a). Qed.

Lemma geb_false (a b : Q) : Py.geb a b = false <-> a < b.
Proof.
  rewrite <- (ltb_true a b). unfold Py.geb, Py.ltb.
  now destruct (Qle_bool b a).
Qed.

Lemma max2_bounds (a b : Q) : a <= Py.max2 a b /\ b <= Py.max2 a b.
Proof.
  unfold Py.max2. destruct (Py.gtb b a) eqn:Hg.
  - apply gtb_true in Hg. lra.
  - apply gtb_false in Hg. lra.
Qed.

Lemma max3_bounds (a b c : Q) :
  a <= Py.max3 a b c /\ b <= Py.max3 a b c /\ c <= Py.max3 a b c.
Proof.
  unfold Py.max3.
  destruct (max2_bounds a b) as [Ha Hb].
  destruct (max2_bounds (Py.max2 a b) c) as [Hab Hc].
  lra.
Qed.

Lemma is_strong_true (t s k : Q) :
  is_strong t s k = true
  <-> 65 # 100 <= t \/ 65 # 100 <= s \/ 65 # 100 <= k.
Proof.
  unfold is_strong. rewrite !orb_true_iff, !geb_true. tauto.
Qed.

Lemma all_weak_is_not_strong (t s k : Q) :
  all_weak t s k = negb (is_strong t s k).
Proof.
  unfold all_weak, is_strong, Py.ltb, Py.geb.
  now destruct (Qle_bool (65 # 100) t), (Qle_bool (65 # 100) s),
    (Qle_bool (65 # 100) k).
Qed.

Lemma weak_avg_below (t s k : Q) :
  is_strong t s k = false -> avg_score t s k < 65 # 100.
Proof.
  unfold is_strong. rewrite !orb_false_iff, !geb_false.
  intros [[Ht Hs] Hk]. unfold avg_score, Qdiv.
  change (/ 3) with (1 # 3). lra.
Qed.

Lemma strong_max_above (t s k : Q) :
  is_strong t s k = true -> 65 # 100 <= Py.max3 t s k.
Proof.
  rewrite is_strong_true. intros Hs.
  destruct (max3_bounds t s k) as (Ht & Hs' & Hk). lra.
Qed.

(** ** The scoring loops as folds over the records *)

Section ScoringFolds.
Context `{E : Embeddings}.

Lemma list_step_view (query_embedding : vector)
    (st : ResponseGeneration.Pass2) (index : nat)
    (item_embeddings : ItemEmbeddings) (item : Item) :
  nth_error database index = Some item ->
  ResponseGeneration.pass2_step query_embedding st index item_embeddings
  = Ok (list_step_on query_embedding st (item, item_embeddings)).
Proof.
  intros Hnth.
  unfold ResponseGeneration.pass2_step, list_step_on, Py.getitem,
    record_strong, record_avg, record_max.
  cbn [fst snd]. rewrite Hnth, all_weak_is_not_strong.
  destruct (is_strong _ _ _); cbn [bind negb];
    rewrite ?andb_false_r, ?andb_true_r; [reflexivity|].
  match goal with
  | |- context [if ?cond then _ else _] => destruct cond
  end; reflexivity.
Qed.

Lemma list_loop_view (query_embedding : vector)
    (embs : list ItemEmbeddings) (st : ResponseGeneration.Pass2)
    (index : nat) :
  (index + length embs <= length database)%nat ->
  ResponseGeneration.pass2_loop query_embedding st index embs
  = Ok (fold_left (list_step_on query_embedding)
                  (combine (skipn index database) embs) st).
Proof.
  revert st index; induction embs as [|e embs IH]; intros st index Hlen;
    cbn [ResponseGeneration.pass2_loop length] in *.
  - now rewrite combine_nil.
  - destruct (getitem_Ok database index) as (item & Hnth & _); [lia|].
    rewrite (list_step_view _ _ _ _ _ Hnth); cbn [bind].
    rewrite IH by lia.
    rewrite (skipn_nth_error _ _ _ Hnth). reflexivity.
Qed.

Lemma single_step_view (query_embedding : vector)
    (st : AnalyseDataframe.Pass2) (index : nat)
    (item_embeddings : ItemEmbeddings) (item : Item) :
  nth_error database index = Some item ->
  AnalyseDataframe.pass2_step query_embedding st index item_embeddings
  = Ok (single_step_on query_embedding st (item, item_embeddings)).
Proof.
  intros Hnth.
  unfold AnalyseDataframe.pass2_step, single_step_on, Py.getitem,
    record_strong, record_avg, record_max.
  cbn [fst snd]. rewrite Hnth, all_weak_is_not_strong.
  destruct (is_strong _ _ _); cbn [bind negb];
    rewrite ?andb_false_r, ?andb_true_r; [reflexivity|].
  match goal with
  | |- context [if ?cond then _ else _] => destruct cond
  end; reflexivity.
Qed.

Lemma single_loop_view (query_embedding : vector)
    (embs : list ItemEmbeddings) (st : AnalyseDataframe.Pass2)
    (index : nat) :
  (index + length embs <= length database)%nat ->
  AnalyseDataframe.pass2_loop query_embedding st index embs
  = Ok (fold_left (single_step_on query_embedding)
                  (combine (skipn index database) embs) st).
Proof.
  revert st index; induction embs as [|e embs IH]; intros st index Hlen;
    cbn [AnalyseDataframe.pass2_loop length] in *.
  - now rewrite combine_nil.
  - destruct (getitem_Ok database index) as (item & Hnth & _); [lia|].
    rewrite (single_step_view _ _ _ _ _ Hnth); cbn [bind].
    rewrite IH by lia.
    rewrite (skipn_nth_error _ _ _ Hnth). reflexivity.
Qed.

(** With no token in common, the list matcher is the decision on the
    fold. *)
Lemma list_matcher_view (query : string) (threshold : Q) :
  length db_embeddings = length database ->
  lexical_matches query database = [] ->
  ResponseGeneration.find_best_context query threshold
  = Ok (ResponseGeneration.decide threshold
          (fold_left (list_step_on (encode (Py.lower query)))
                     (combine database db_embeddings)
                     ResponseGeneration.pass2_init)).
Proof.
  intros Hlen Hnone. unfold ResponseGeneration.find_best_context.
  rewrite query_words_tokens, match_generator_filter by lia.
  rewrite Hlen, firstn_all. cbn [skipn bind].
  fold (lexical_matches query database). rewrite Hnone.
  rewrite list_loop_view by lia. reflexivity.
Qed.

Lemma single_matcher_view (query : string) (threshold : Q) :
  length db_embeddings = length database ->
  AnalyseDataframe.find_best_context query threshold
  = Ok (AnalyseDataframe.decide threshold
          (fold_left (single_step_on (encode (Py.lower query)))
                     (combine database db_embeddings)
                     AnalyseDataframe.pass2_init)).
Proof.
  intros Hlen. unfold AnalyseDataframe.find_best_context.
  rewrite single_loop_view by lia. reflexivity.
Qed.

End ScoringFolds.

(** ** Invariants of the list matcher *)

Section ListMatcher.
Context `{M : EmbeddingModel}.

Lemma pass2_init_inv : pass2_inv ResponseGeneration.pass2_init.
Proof.
  unfold pass2_inv, ResponseGeneration.pass2_init; cbn.
  repeat split; try lra; try congruence.
Qed.

Lemma app_one_not_nil {A : Type} (l : list A) (x : A) :
  (l ++ [x])%list <> [].
Proof. now destruct l. Qed.

Lemma list_step_inv (query_embedding : vector)
    (st : ResponseGeneration.Pass2) (entry : Item * ItemEmbeddings) :
  pass2_inv st -> pass2_inv (list_step_on query_embedding st entry).
Proof.
  intros (H0 & Hlt & Hmax0 & Hmax1 & Hb0 & Hb1).
  unfold list_step_on.
  destruct (record_strong query_embedding (snd entry)) eqn:Hs;
    cbn [negb]; rewrite ?andb_false_r, ?andb_true_r.
  - unfold pass2_inv; cbn. repeat split; trivial.
    + intros Hnil. now apply app_one_not_nil in Hnil.
    + intros _. now apply strong_max_above.
  - destruct (Py.gtb _ _) eqn:Hg;
      [|unfold pass2_inv; repeat split; trivial].
    apply gtb_true in Hg.
    unfold pass2_inv; cbn. repeat split; trivial.
    + lra.
    + now apply weak_avg_below.
    + intros Hnil. now apply app_one_not_nil in Hnil.
    + intros _. lra.
Qed.

Lemma list_fold_inv (query_embedding : vector)
    (entries : list (Item * ItemEmbeddings))
    (st : ResponseGeneration.Pass2) :
  pass2_inv st ->
  pass2_inv (fold_left (list_step_on query_embedding) entries st).
Proof.
  revert st; induction entries as [|e entries IH]; intros st Hinv;
    cbn [fold_left]; [exact Hinv|].
  apply IH. now apply list_step_inv.
Qed.

Lemma list_fold_strong (query_embedding : vector)
    (entries : list (Item * ItemEmbeddings))
    (st : ResponseGeneration.Pass2) :
  ResponseGeneration.best_max_match_response
    (fold_left (list_step_on query_embedding) entries st)
  = (ResponseGeneration.best_max_match_response st
     ++ map fst (filter (fun entry =>
                           record_strong query_embedding (snd entry))
                        entries))%list.
Proof.
  revert st; induction entries as [|e entries IH]; intros st;
    cbn [fold_left filter map]; [now rewrite app_nil_r|].
  rewrite IH. unfold list_step_on.
  destruct (record_strong query_embedding (snd e));
    cbn [negb]; rewrite ?andb_false_r, ?andb_true_r.
  - cbn. now rewrite <- app_assoc.
  - now destruct (Py.gtb _ _).
Qed.

Lemma decide_strong (threshold : Q) (st : ResponseGeneration.Pass2) :
  pass2_inv st ->
  ResponseGeneration.best_max_match_response st <> [] ->
  ResponseGeneration.decide threshold st
  = Some (ResponseGeneration.best_max_match_response st).
Proof.
  intros (H0 & Hlt & Hmax0 & Hmax1 & Hb0 & Hb1) Hne.
  specialize (Hmax1 Hne). unfold ResponseGeneration.decide.
  assert (Hl : Py.ltb (ResponseGeneration.best_max_match_score st)
                 (ResponseGeneration.best_match_score st) = false)
    by (apply ltb_false; lra).
  assert (Hg : Py.gtb (ResponseGeneration.best_max_match_score st)
                 (ResponseGeneration.best_match_score st) = true)
    by (apply gtb_true; lra).
  now rewrite Hl, Hg, andb_false_r.
Qed.

Lemma decide_never_empty (threshold : Q) (st : ResponseGeneration.Pass2) :
  pass2_inv st -> ResponseGeneration.decide threshold st <> Some [].
Proof.
  intros (H0 & Hlt & Hmax0 & Hmax1 & Hb0 & Hb1).
  unfold ResponseGeneration.decide.
  destruct (Py.geb _ _ && Py.ltb _ _) eqn:Hc.
  - apply andb_true_iff in Hc. destruct Hc as [_ Hl].
    apply ltb_true in Hl. intros Heq. inversion Heq as [Hnil].
    specialize (Hb0 Hnil).
    destruct (ResponseGeneration.best_max_match_response st) eqn:Hr.
    + rewrite (Hmax0 eq_refl), Hb0 in Hl. lra.
    + assert (65 # 100 <= ResponseGeneration.best_max_match_score st)
        by (apply Hmax1; discriminate).
      lra.
  - destruct (Py.gtb _ _) eqn:Hg; [|discriminate].
    apply gtb_true in Hg. intros Heq. inversion Heq as [Hnil].
    rewrite (Hmax0 Hnil) in Hg. lra.
Qed.

End ListMatcher.

Lemma Forall_combine_r {A B : Type} (P : B -> Prop) (l : list A)
    (l' : list B) :
  Forall P l' -> Forall (fun entry => P (snd entry)) (combine l l').
Proof.
  rewrite !Forall_forall. intros Hall [a b] Hin.
  apply Hall. now apply in_combine_r in Hin.
Qed.

Lemma list_fold_below `{M : EmbeddingModel} (query_embedding : vector)
    (threshold : Q) (entries : list (Item * ItemEmbeddings))
    (st : ResponseGeneration.Pass2) :
  Forall (fun entry =>
            record_strong query_embedding (snd entry) = false
            /\ record_avg query_embedding (snd entry) < threshold)
         entries ->
  0 <= ResponseGeneration.best_match_score st ->
  ResponseGeneration.best_max_match_score st = 0 ->
  ResponseGeneration.best_match_score st = 0
  \/ ResponseGeneration.best_match_score st < threshold ->
  ResponseGeneration.decide threshold
    (fold_left (list_step_on query_embedding) entries st)
  = None.
Proof.
  intros Hall; revert st; induction Hall as [|e entries [Hweak Havg] _ IH];
    intros st H0 Hmax Hbest; cbn [fold_left].
  - unfold ResponseGeneration.decide. rewrite Hmax.
    assert (Hg : Py.gtb 0 (ResponseGeneration.best_match_score st) = false)
      by (apply gtb_false; exact H0).
    rewrite Hg. destruct Hbest as [Hz|Hlt].
    + rewrite Hz. change (Py.ltb 0 0) with false.
      now rewrite andb_false_r.
    + apply geb_false in Hlt. now rewrite Hlt.
  - apply IH; unfold list_step_on; rewrite Hweak; cbn [negb];
      rewrite andb_true_r;
      destruct (Py.gtb _ _) eqn:Hg; cbn; trivial.
    + apply gtb_true in Hg. lra.
    + now right.
Qed.

(** X1. When the query shares no token with any trigger word and
    some record has a component score of 0.65 or more, the list matcher
    returns all such records, in the order of the knowledge base,
    whatever the threshold. *)
Theorem strong_records_all_returned :
  forall (M : EmbeddingModel) (E : @Embeddings M) (query : string)
         (threshold : Q),
    length db_embeddings = length database ->
    lexical_matches query database = [] ->
    strong_records (encode (Py.lower query)) database db_embeddings <> [] ->
    ResponseGeneration.find_best_context query threshold
    = Ok (Some (strong_records (encode (Py.lower query))
                  database db_embeddings)).
Proof.
  intros M E query threshold Hlen Hnone Hstrong.
  rewrite list_matcher_view by assumption. f_equal.
  pose proof (list_fold_strong (encode (Py.lower query))
                (combine database db_embeddings)
                ResponseGeneration.pass2_init) as Hlist.
  cbn [ResponseGeneration.pass2_init
         ResponseGeneration.best_max_match_response app] in Hlist.
  fold (strong_records (encode (Py.lower query)) database db_embeddings)
    in Hlist.
  rewrite <- Hlist. apply decide_strong.
  - apply list_fold_inv, pass2_init_inv.
  - now rewrite Hlist.
Qed.

Lemma strong_records_all_returned_witness :
  length (@db_embeddings _ Demo.kb_strong)
  = length (@database _ Demo.kb_strong)
  /\ lexical_matches "heart pain" (@database _ Demo.kb_strong) = []
  /\ @ResponseGeneration.find_best_context _ Demo.kb_strong
       "heart pain" (99 # 100)
     = Ok (Some [Demo.angina; Demo.cholesterol]).
Proof.
  split; [reflexivity|]. split; [reflexivity|].
  refine (strong_records_all_returned Demo.east Demo.kb_strong
            "heart pain" (99 # 100) eq_refl eq_refl _).
  vm_compute. discriminate.
Defined.

(** X2. When the query shares no token with any trigger word, no
    record has a component score of 0.65 or more and the mean score of
    every record is below the threshold, the list matcher returns
    nothing. *)
Theorem nothing_returned_below_threshold :
  forall (M : EmbeddingModel) (E : @Embeddings M) (query : string)
         (threshold : Q),
    length db_embeddings = length database ->
    lexical_matches query database = [] ->
    Forall (fun item_embeddings =>
              record_strong (encode (Py.lower query)) item_embeddings = false
              /\ record_avg (encode (Py.lower query)) item_embeddings
                 < threshold)
           db_embeddings ->
    ResponseGeneration.find_best_context query threshold = Ok None.
Proof.
  intros M E query threshold Hlen Hnone Hall.
  rewrite list_matcher_view by assumption. f_equal.
  apply list_fold_below.
  - apply (Forall_combine_r
             (fun item_embeddings =>
                record_strong (encode (Py.lower query)) item_embeddings
                = false
                /\ record_avg (encode (Py.lower query)) item_embeddings
                   < threshold)).
    exact Hall.
  - cbn. lra.
  - reflexivity.
  - now left.
Qed.

Lemma nothing_returned_below_threshold_witness :
  @ResponseGeneration.find_best_context _ Demo.kb "what is football" (3 # 10)
  = Ok None.
Proof.
  refine (nothing_returned_below_threshold Demo.east Demo.kb
            "what is football" (3 # 10) eq_refl eq_refl _).
  repeat constructor.
Defined.

(** X3. The list matcher never returns an empty list: its result is
    either nothing or at least one record, so the orchestrator's test of
    the result only ever separates "nothing" from "some records". *)
Theorem matcher_never_returns_empty_list :
  forall (M : EmbeddingModel) (E : @Embeddings M) (query : string)
         (threshold : Q),
    length db_embeddings = length database ->
    ResponseGeneration.find_best_context query threshold <> Ok (Some []).
Proof.
  intros M E query threshold Hlen.
  destruct (lexical_matches query database) as [|item items] eqn:Hlex.
  - rewrite list_matcher_view by assumption.
    intros Heq. inversion Heq as [Hd]. revert Hd.
    apply decide_never_empty, list_fold_inv, pass2_init_inv.
  - rewrite pass1_returns by (trivial; congruence).
    rewrite Hlex. discriminate.
Qed.

Lemma matcher_never_returns_empty_list_witness :
  @ResponseGeneration.find_best_context _ Demo.kb "what is football" (3 # 10)
  <> Ok (Some []).
Proof.
  exact (matcher_never_returns_empty_list Demo.east Demo.kb
           "what is football" (3 # 10) eq_refl).
Defined.

(** ** The avg bucket of the list matcher *)





(** ** The two matchers side by side *)

Lemma last_record_app {A : Type} (l : list A) (x : A) :
  last_record (l ++ [x])%list = Some x.
Proof.
  unfold last_record. now rewrite rev_app_distr.
Qed.

Section SideBySide.
Context `{M : EmbeddingModel}.

Lemma step_same_buckets (query_embedding : vector)
    (stl : ResponseGeneration.Pass2) (sts : AnalyseDataframe.Pass2)
    (entry : Item * ItemEmbeddings) :
  same_buckets stl sts ->
  same_buckets (list_step_on query_embedding stl entry)
               (single_step_on query_embedding sts entry).
Proof.
  intros (Hs & Hm & Hr & Hmr).
  unfold list_step_on, single_step_on.
  destruct (record_strong query_embedding (snd entry));
    cbn [negb]; rewrite ?andb_false_r, ?andb_true_r.
  - unfold same_buckets; cbn. rewrite last_record_app. now repeat split.
  - rewrite Hs. destruct (Py.gtb _ _).
    + unfold same_buckets; cbn. rewrite last_record_app. now repeat split.
    + now repeat split.
Qed.

Lemma fold_same_buckets (query_embedding : vector)
    (entries : list (Item * ItemEmbeddings))
    (stl : ResponseGeneration.Pass2) (sts : AnalyseDataframe.Pass2) :
  same_buckets stl sts ->
  same_buckets (fold_left (list_step_on query_embedding) entries stl)
               (fold_left (single_step_on query_embedding) entries sts).
Proof.
  revert stl sts; induction entries as [|e entries IH]; intros stl sts Hsame;
    cbn [fold_left]; [exact Hsame|].
  apply IH. now apply step_same_buckets.
Qed.

Lemma decide_same_buckets (threshold : Q) (stl : ResponseGeneration.Pass2)
    (sts : AnalyseDataframe.Pass2) :
  same_buckets stl sts ->
  AnalyseDataframe.decide threshold sts
  = match ResponseGeneration.decide threshold stl with
    | Some records => last_record records
    | None => None
    end.
Proof.
  intros (Hs & Hm & Hr & Hmr).
  unfold AnalyseDataframe.decide, ResponseGeneration.decide.
  rewrite Hs, Hm, Hr, Hmr.
  destruct (Py.geb _ _ && Py.ltb _ _); [reflexivity|].
  now destruct (Py.gtb _ _).
Qed.

End SideBySide.

(** X5. On a query that shares no token with any trigger word, the
    single-record matcher of analyse_dataframe.py returns the last record
    of the list the matcher of response_generation.py returns, and nothing
    when that one returns nothing. *)
Theorem single_matcher_returns_last_of_list :
  forall (M : EmbeddingModel) (E : @Embeddings M) (query : string)
         (threshold : Q),
    length db_embeddings = length database ->
    lexical_matches query database = [] ->
    exists returned,
      ResponseGeneration.find_best_context query threshold = Ok returned
      /\ AnalyseDataframe.find_best_context query threshold
         = Ok (match returned with
               | Some records => last_record records
               | None => None
               end).
Proof.
  intros M E query threshold Hlen Hnone.
  rewrite list_matcher_view, single_matcher_view by assumption.
  eexists. split; [reflexivity|]. f_equal.
  apply decide_same_buckets, fold_same_buckets.
  now repeat split.
Qed.

Lemma single_matcher_returns_last_of_list_witness :
  exists returned,
    @ResponseGeneration.find_best_context _ Demo.kb "what is football"
      (15 # 100) = Ok returned
    /\ @AnalyseDataframe.find_best_context _ Demo.kb "what is football"
         (15 # 100)
       = Ok (match returned with
             | Some records => last_record records
             | None => None
             end).
Proof.
  exact (single_matcher_returns_last_of_list Demo.east Demo.kb
           "what is football" (15 # 100) eq_refl eq_refl).
Defined.

(** ** The matcher of maxFromEachColumn.py *)

Lemma early_return_loop `{E : Embeddings} (query_embedding : vector)
    (before after : list ItemEmbeddings) (item_embeddings : ItemEmbeddings)
    (item : Item) (st : Q * option Item) (index : nat) :
  Forall (fun other => record_strong query_embedding other = false) before ->
  record_strong query_embedding item_embeddings = true ->
  nth_error database (index + length before) = Some item ->
  MaxFromEachColumn.loop query_embedding st index
    (before ++ item_embeddings :: after)%list
  = Ok (inl item).
Proof.
  intros Hweak Hstrong; revert st index;
    induction Hweak as [|e before He _ IH]; intros st index Hnth;
    cbn [app MaxFromEachColumn.loop MaxFromEachColumn.component_scores
           length] in *.
  - unfold record_strong in Hstrong. rewrite Hstrong.
    rewrite Nat.add_0_r in Hnth. unfold Py.getitem. now rewrite Hnth.
  - unfold record_strong in He. rewrite He.
    assert (Hlt : (index < length database)%nat).
    { assert (Hsome : nth_error database (index + S (length before))
                      <> None) by congruence.
      apply nth_error_Some in Hsome. lia. }
    destruct (getitem_Ok database index Hlt) as (here & _ & Hget).
    rewrite Hget.
    rewrite <- Nat.add_succ_comm in Hnth.
    destruct (Py.gtb _ _ && all_weak _ _ _); cbn [bind]; now apply IH.
Qed.

(** X6. The matcher of maxFromEachColumn.py returns the first record,
    in scan order, that has a component score of 0.65 or more, without
    looking at the threshold or at the records after it. *)
Theorem first_strong_record_returned :
  forall (M : EmbeddingModel) (E : @Embeddings M) (query : string)
         (threshold : Q) (before after : list ItemEmbeddings)
         (item_embeddings : ItemEmbeddings) (item : Item),
    db_embeddings = (before ++ item_embeddings :: after)%list ->
    Forall (fun other =>
              record_strong (encode (Py.lower query)) other = false)
           before ->
    record_strong (encode (Py.lower query)) item_embeddings = true ->
    nth_error database (length before) = Some item ->
    MaxFromEachColumn.find_best_context query threshold = Ok (Some item).
Proof.
  intros M E query threshold before after item_embeddings item
    Hsplit Hweak Hstrong Hnth.
  unfold MaxFromEachColumn.find_best_context. rewrite Hsplit.
  now rewrite (early_return_loop _ before after item_embeddings item).
Qed.

Lemma first_strong_record_returned_witness :
  @MaxFromEachColumn.find_best_context _ Examples.kb_weak_then_strong
    "heart pain" (99 # 100)
  = Ok (Some Demo.angina).
Proof.
  refine (first_strong_record_returned Demo.east
            Examples.kb_weak_then_strong "heart pain" (99 # 100)
            [Demo.emb (3 # 5, 4 # 5) Demo.blank Demo.blank] []
            (Demo.emb (24 # 25, 7 # 25) Demo.blank Demo.blank)
            Demo.angina eq_refl _ eq_refl eq_refl).
  repeat constructor.
Defined.

(** ** The best-score matcher of app3Japanese.py *)

Section BestScore.
Context `{B : CsvBase}.

Lemma best_loop_spec (query_embedding : vector) (threshold : Q)
    (embs : list ItemEmbeddings) (index : nat) (st st' : Q * option string) :
  (index + length embs <= length csv_database)%nat ->
  App3Japanese.loop query_embedding threshold st index embs = Ok st' ->
  fst st <= fst st'
  /\ Forall (fun item_embeddings =>
               record_max query_embedding item_embeddings <= fst st'
               \/ record_max query_embedding item_embeddings < threshold)
            embs
  /\ (st' = st
      \/ exists i item item_embeddings,
           nth_error embs i = Some item_embeddings
           /\ nth_error csv_database (index + i) = Some item
           /\ st' = (record_max query_embedding item_embeddings,
                     Some (Csv.response item))
           /\ threshold <= record_max query_embedding item_embeddings
           /\ fst st < record_max query_embedding item_embeddings).
Proof.
  revert index st; induction embs as [|e embs IH]; intros index st Hlen;
    cbn [App3Japanese.loop length] in *.
  - intros Heq; inversion Heq; subst.
    split; [lra|]. split; [constructor | now left].
  - unfold App3Japanese.step. fold (record_max query_embedding e).
    destruct (getitem_Ok csv_database index) as (item & Hnth & Hget);
      [lia|].
    destruct (Py.gtb _ _ && Py.geb _ _) eqn:Hc.
    + rewrite Hget; cbn [bind]. intros Hloop.
      apply andb_true_iff in Hc. destruct Hc as [Hg Hge].
      apply gtb_true in Hg. apply geb_true in Hge.
      destruct (IH (S index) _ ltac:(lia) Hloop) as (Hmono & Hall & Hres).
      cbn [fst] in Hmono. split; [lra|]. split.
      * constructor; [left; exact Hmono | exact Hall].
      * right. destruct Hres as [Heq|(i & it & ie & Hi & Hdb & Hst & Ht & Hf)].
        -- exists 0%nat, item, e. rewrite Nat.add_0_r.
           now repeat split.
        -- exists (S i), it, ie. rewrite <- Nat.add_succ_comm.
           cbn [fst] in Hf. repeat split; trivial. lra.
    + cbn [bind]. intros Hloop.
      destruct (IH (S index) _ ltac:(lia) Hloop) as (Hmono & Hall & Hres).
      split; [exact Hmono|]. split.
      * constructor; [|exact Hall].
        apply andb_false_iff in Hc. destruct Hc as [Hg|Hge].
        -- apply gtb_false in Hg. left. lra.
        -- apply geb_false in Hge. now right.
      * destruct Hres as [Heq|(i & it & ie & Hi & Hdb & Hst & Ht & Hf)];
          [now left|].
        right. exists (S i), it, ie. rewrite <- Nat.add_succ_comm.
        now repeat split.
Qed.

Lemma best_loop_total (query_embedding : vector) (threshold : Q)
    (embs : list ItemEmbeddings) (index : nat) (st : Q * option string) :
  (index + length embs <= length csv_database)%nat ->
  exists st',
    App3Japanese.loop query_embedding threshold st index embs = Ok st'.
Proof.
  revert index st; induction embs as [|e embs IH]; intros index st Hlen;
    cbn [App3Japanese.loop length] in *; [now exists st|].
  unfold App3Japanese.step.
  destruct (getitem_Ok csv_database index) as (item & _ & Hget); [lia|].
  rewrite Hget.
  destruct (Py.gtb _ _ && Py.geb _ _); cbn [bind]; apply IH; lia.
Qed.

Lemma best_loop_unchanged (query_embedding : vector) (threshold : Q)
    (embs : list ItemEmbeddings) (index : nat) (st : Q * option string) :
  Forall (fun item_embeddings =>
            record_max query_embedding item_embeddings < threshold
            \/ record_max query_embedding item_embeddings <= fst st)
         embs ->
  App3Japanese.loop query_embedding threshold st index embs = Ok st.
Proof.
  intros Hall; revert index; induction Hall as [|e embs He _ IH];
    intros index; cbn [App3Japanese.loop]; [reflexivity|].
  unfold App3Japanese.step. fold (record_max query_embedding e).
  assert (Hc : Py.gtb (record_max query_embedding e) (fst st)
               && Py.geb (record_max query_embedding e) threshold = false).
  { apply andb_false_iff. destruct He as [Hlt|Hle].
    - right. now apply geb_false.
    - left. now apply gtb_false. }
  rewrite Hc; cbn [bind]. apply IH.
Qed.

End BestScore.

(** X7. A response returned by the matcher of app3Japanese.py is the
    response column of a record whose highest component score reaches the
    threshold, is positive, and is the highest of the whole knowledge
    base. *)
Theorem best_score_response_is_maximal :
  forall (M : EmbeddingModel) (B : @CsvBase M) (query : string)
         (threshold : Q) (reply : string),
    length csv_db_embeddings = length csv_database ->
    App3Japanese.find_best_context query threshold = Ok (Some reply) ->
    exists index item item_embeddings,
      nth_error csv_db_embeddings index = Some item_embeddings
      /\ nth_error csv_database index = Some item
      /\ reply = Csv.response item
      /\ threshold <= record_max (encode (Py.lower query)) item_embeddings
      /\ 0 < record_max (encode (Py.lower query)) item_embeddings
      /\ Forall (fun other =>
                   record_max (encode (Py.lower query)) other
                   <= record_max (encode (Py.lower query)) item_embeddings)
                csv_db_embeddings.
Proof.
  intros M B query threshold reply Hlen.
  unfold App3Japanese.find_best_context.
  destruct (App3Japanese.loop (encode (Py.lower query)) threshold
              (0, None) 0 csv_db_embeddings) as [st'|err] eqn:Hloop;
    cbn [bind]; [|discriminate].
  intros Heq. inversion Heq as [Hsnd]. clear Heq.
  assert (Hfit : (0 + length csv_db_embeddings <= length csv_database)%nat)
    by (cbn; lia).
  destruct (best_loop_spec _ _ _ _ _ _ Hfit Hloop)
    as (_ & Hall & [Hsame|(i & item & ie & Hi & Hdb & Hst & Ht & Hpos)]).
  - subst st'. discriminate.
  - subst st'. cbn [fst snd] in *. inversion Hsnd; subst.
    exists i, item, ie. repeat split; trivial.
    eapply Forall_impl; [|exact Hall]. cbn. intros other [Hle|Hlt]; lra.
Qed.

Lemma best_score_response_is_maximal_witness :
  exists index item item_embeddings,
    nth_error (@csv_db_embeddings _ Demo.csv) index = Some item_embeddings
    /\ nth_error (@csv_database _ Demo.csv) index = Some item
    /\ "Angina is chest pain." = Csv.response item
    /\ (4 # 10) <= record_max (@encode Demo.east "angina") item_embeddings
    /\ 0 < record_max (@encode Demo.east "angina") item_embeddings
    /\ Forall (fun other =>
                 record_max (@encode Demo.east "angina") other
                 <= record_max (@encode Demo.east "angina") item_embeddings)
              (@csv_db_embeddings _ Demo.csv).
Proof.
  exact (best_score_response_is_maximal Demo.east Demo.csv "Angina"
           (4 # 10) "Angina is chest pain." eq_refl eq_refl).
Defined.

(** X8. The matcher of app3Japanese.py returns nothing exactly when
    no record has a highest component score that is both positive and at
    least the threshold. *)
Theorem best_score_none_iff :
  forall (M : EmbeddingModel) (B : @CsvBase M) (query : string)
         (threshold : Q),
    length csv_db_embeddings = length csv_database ->
    (App3Japanese.find_best_context query threshold = Ok None
     <-> Forall (fun item_embeddings =>
                   record_max (encode (Py.lower query)) item_embeddings
                   < threshold
                   \/ record_max (encode (Py.lower query)) item_embeddings
                      <= 0)
                csv_db_embeddings).
Proof.
  intros M B query threshold Hlen.
  unfold App3Japanese.find_best_context. split.
  - destruct (App3Japanese.loop (encode (Py.lower query)) threshold
                (0, None) 0 csv_db_embeddings) as [st'|err] eqn:Hloop;
      cbn [bind]; [|discriminate].
    intros Heq. inversion Heq as [Hsnd]. clear Heq.
    assert (Hfit : (0 + length csv_db_embeddings
                    <= length csv_database)%nat) by (cbn; lia).
    destruct (best_loop_spec _ _ _ _ _ _ Hfit Hloop)
      as (_ & Hall & [Hsame|(i & item & ie & Hi & Hdb & Hst & Ht & Hpos)]).
    + subst st'. eapply Forall_impl; [|exact Hall].
      cbn. intros other [Hle|Hlt]; [now right | now left].
    + subst st'. discriminate.
  - intros Hall.
    now rewrite (best_loop_unchanged _ _ _ 0 (0, None) Hall).
Qed.

Lemma best_score_none_iff_witness :
  @App3Japanese.find_best_context _ Demo.csv_far "football" (4 # 10)
  = Ok None.
Proof.
  apply (proj2 (best_score_none_iff Demo.east Demo.csv_far "football"
                  (4 # 10) eq_refl)).
  repeat constructor.
Defined.

(** ** The matcher of Logic1_OnlyCSV.py *)

(** Two lists of stored embeddings that differ at most in their
    trigger vectors give the same scan. *)
Lemma logic1_loop_ignores_trigger (M : EmbeddingModel) (B B' : @CsvBase M)
    (query_embedding : vector) (threshold : Q)
    (embs embs' : list ItemEmbeddings) (st : Q * option string)
    (index : nat) :
  @csv_database M B' = @csv_database M B ->
  Forall2 (fun a b =>
             synonyms_embeddings a = synonyms_embeddings b
             /\ keywords_embeddings a = keywords_embeddings b)
          embs embs' ->
  @Logic1.loop M B query_embedding threshold st index embs
  = @Logic1.loop M B' query_embedding threshold st index embs'.
Proof.
  intros Hdb Hsame; revert st index;
    induction Hsame as [|a b embs embs' [Hsyn Hkw] _ IH]; intros st index;
    cbn [Logic1.loop]; [reflexivity|].
  assert (Hstep : @Logic1.step M B query_embedding threshold st index a
                  = @Logic1.step M B' query_embedding threshold st index b).
  { unfold Logic1.step, Logic1.component_scores.
    now rewrite Hsyn, Hkw, Hdb. }
  rewrite Hstep.
  destruct (@Logic1.step M B' query_embedding threshold st index b);
    cbn [bind]; [apply IH | reflexivity].
Qed.

(** X9. The matcher of Logic1_OnlyCSV.py does not depend on the
    trigger embeddings: two knowledge bases with the same records and the
    same synonym and keyword embeddings give the same result for every
    query and threshold, whatever their trigger embeddings are. *)
Theorem logic1_ignores_trigger_embeddings :
  forall (M : EmbeddingModel) (B B' : @CsvBase M) (query : string)
         (threshold : Q),
    @csv_database M B' = @csv_database M B ->
    Forall2 (fun a b =>
               synonyms_embeddings a = synonyms_embeddings b
               /\ keywords_embeddings a = keywords_embeddings b)
            (@csv_db_embeddings M B) (@csv_db_embeddings M B') ->
    @Logic1.find_best_context M B query threshold
    = @Logic1.find_best_context M B' query threshold.
Proof.
  intros M B B' query threshold Hdb Hsame.
  unfold Logic1.find_best_context.
  now rewrite (logic1_loop_ignores_trigger M B B' _ _ _ _ _ _ Hdb Hsame).
Qed.

Lemma logic1_ignores_trigger_embeddings_witness :
  @Logic1.find_best_context _ Demo.csv "angina" (5 # 10)
  = @Logic1.find_best_context _ Examples.csv_other_trigger "angina" (5 # 10).
Proof.
  refine (logic1_ignores_trigger_embeddings Demo.east Demo.csv
            Examples.csv_other_trigger "angina" (5 # 10) eq_refl _).
  repeat constructor.
Defined.

(** ** The two intent routers side by side *)





(** ** The direct path of the orchestrator *)

Section DirectPath.
Context `{E : Embeddings} {Hp : Helpers}.

Lemma route_all_answers (user_input : string) (items : list Item)
    (answers : list string) (last : Item) (last_answer : string)
    (flag : nat) (acc : list string) (flag0 : nat) :
  Forall2 (fun item answer =>
             exists f,
               ResponseGeneration.match_columns user_input (PyDict item)
               = Ok (answer, f))
          items answers ->
  ResponseGeneration.match_columns user_input (PyDict last)
  = Ok (last_answer, flag) ->
  ResponseGeneration.route_all user_input (items ++ [last])%list acc flag0
  = Ok ((acc ++ filter Py.truthy (answers ++ [last_answer]))%list, flag).
Proof.
  intros Hall Hlast; revert acc flag0;
    induction Hall as [|item answer items answers [f Hitem] _ IH];
    intros acc flag0; cbn [app ResponseGeneration.route_all filter].
  - rewrite Hlast; cbn [bind ResponseGeneration.route_all].
    destruct (Py.truthy last_answer); [reflexivity | now rewrite app_nil_r].
  - rewrite Hitem; cbn [bind]. rewrite IH.
    destruct (Py.truthy answer); [now rewrite <- app_assoc | reflexivity].
Qed.

End DirectPath.

(** X11. When the direct match returns records, the response of the
    orchestrator is the non-empty answers of the router for these records,
    in the order of the records, joined by the blank-line separator; the
    disclaimer is appended exactly when the routing of the last record
    raised the weak-match flag. *)
Theorem direct_path_response :
  forall (M : EmbeddingModel) (E : @Embeddings M) (Hp : Helpers)
         (user_input : string) (threshold : Q) (items : list Item)
         (answers : list string) (last : Item) (last_answer : string)
         (flag : nat),
    ResponseGeneration.find_best_context user_input threshold
    = Ok (Some (items ++ [last])%list) ->
    Forall2 (fun item answer =>
               exists f,
                 ResponseGeneration.match_columns user_input (PyDict item)
                 = Ok (answer, f))
            items answers ->
    ResponseGeneration.match_columns user_input (PyDict last)
    = Ok (last_answer, flag) ->
    ResponseGeneration.get_response user_input threshold
    = Ok (if (flag =? 1)%nat
          then Py.join ResponseGeneration.separator
                 (filter Py.truthy (answers ++ [last_answer]))
               ++ ResponseGeneration.disclaimer
          else Py.join ResponseGeneration.separator
                 (filter Py.truthy (answers ++ [last_answer]))).
Proof.
  intros M E Hp user_input threshold items answers last last_answer flag
    Hfind Hall Hlast.
  unfold ResponseGeneration.get_response. rewrite Hfind; cbn [bind].
  destruct (items ++ [last])%list as [|x xs] eqn:Hitems;
    [now apply app_one_not_nil in Hitems|].
  rewrite <- Hitems.
  rewrite (route_all_answers user_input items answers last last_answer
             flag [] 0%nat Hall Hlast).
  reflexivity.
Qed.

Lemma direct_path_response_witness :
  @ResponseGeneration.get_response _ Demo.kb Demo.no_correction
    "what is cholesterol and what is angina" (3 # 10)
  = Ok ("Angina is chest pain." ++ ResponseGeneration.separator
        ++ "Cholesterol is a fat found in blood.").
Proof.
  refine (direct_path_response Demo.east Demo.kb Demo.no_correction
            "what is cholesterol and what is angina" (3 # 10)
            [Demo.angina] ["Angina is chest pain."] Demo.cholesterol
            "Cholesterol is a fat found in blood." 0%nat eq_refl _ eq_refl).
  constructor; [now exists 0%nat | constructor].
Defined.

(** X12. A query that shares a token with the trigger word of exactly
    one record and contains no intent keyword is answered with the What
    column of that record followed by the disclaimer, provided that
    column is not empty. *)
Theorem trigger_only_query_gets_disclaimer :
  forall (M : EmbeddingModel) (E : @Embeddings M) (Hp : Helpers)
         (user_input : string) (threshold : Q) (item : Item),
    length db_embeddings = length database ->
    lexical_matches user_input database = [item] ->
    keyword_hits ResponseGeneration.intent_words
      (correct_spelling (Py.lower user_input)) = [] ->
    Py.truthy (col_What item) = true ->
    ResponseGeneration.get_response user_input threshold
    = Ok (col_What item ++ ResponseGeneration.disclaimer).
Proof.
  intros M E Hp user_input threshold item Hlen Hlex Hnone Hwhat.
  unfold ResponseGeneration.get_response.
  rewrite pass1_returns by (trivial; rewrite Hlex; discriminate).
  rewrite Hlex; cbn [bind ResponseGeneration.route_all].
  rewrite match_columns_dict.
  rewrite (no_keyword_no_answered_hit _ _ item Hnone), Hwhat; cbn [bind].
  rewrite Hwhat. reflexivity.
Qed.

Lemma trigger_only_query_gets_disclaimer_witness :
  @ResponseGeneration.get_response _ Demo.kb Demo.no_correction
    "angina" (3 # 10)
  = Ok ("Angina is chest pain." ++ ResponseGeneration.disclaimer).
Proof.
  exact (trigger_only_query_gets_disclaimer Demo.east Demo.kb
           Demo.no_correction "angina" (3 # 10) Demo.angina
           eq_refl eq_refl eq_refl eq_refl).
Defined.

(** ** A call and a session of app3Japanese.py that find a record *)

Lemma last_n_all {A : Type} (n : nat) (l : list A) :
  (length l <= n)%nat -> Py.last_n n l = l.
Proof.
  intros Hle. unfold Py.last_n.
  replace (length l - n)%nat with 0%nat by lia. reflexivity.
Qed.

Lemma last_n_suffix {A : Type} (a b : list A) :
  Py.last_n (length b) (a ++ b)%list = b.
Proof.
  unfold Py.last_n. rewrite length_app.
  replace (length a + length b - length b)%nat with (length a) by lia.
  rewrite skipn_app, skipn_all, Nat.sub_diag. reflexivity.
Qed.

Lemma last_n_map {A B : Type} (f : A -> B) (n : nat) (l : list A) :
  map f (Py.last_n n l) = Py.last_n n (map f l).
Proof.
  unfold Py.last_n. now rewrite skipn_map, length_map.
Qed.

Lemma last_n_app_last_n {A : Type} (n : nat) (a b : list A) :
  Py.last_n n (Py.last_n n a ++ b)%list = Py.last_n n (a ++ b)%list.
Proof.
  destruct (Nat.le_gt_cases (length a) n) as [Hle|Hgt].
  - now rewrite (last_n_all n a Hle).
  - unfold Py.last_n.
    rewrite !length_app, length_skipn, !skipn_app, !length_skipn.
    rewrite skipn_skipn.
    replace (length a - (length a - n) + length b - n
             + (length a - n))%nat
      with (length a + length b - n)%nat by lia.
    f_equal. f_equal. lia.
Qed.

Lemma set_last_response_app (response : string)
    (h : list App3Japanese.Turn) (turn : App3Japanese.Turn) :
  App3Japanese.set_last_response response (h ++ [turn])%list
  = (h ++ [{| App3Japanese.user_input := App3Japanese.user_input turn;
              App3Japanese.bot_response := response |}])%list.
Proof.
  unfold App3Japanese.set_last_response.
  rewrite rev_app_distr. cbn [rev app]. now rewrite rev_involutive.
Qed.

Section MatchedCall.
Context `{B : CsvBase} {G : Generator}.

(** The context handed to the generator, computed after the current
    input was appended to the history with an empty reply. *)
Lemma relevant_context_of_current (input : string) (c : list string)
    (h : list App3Japanese.Turn) :
  App3Japanese.get_relevant_context input
    {| App3Japanese.context := c;
       App3Japanese.history :=
         (h ++ [{| App3Japanese.user_input := input;
                   App3Japanese.bot_response := EmptyString |}])%list |}
  = match last_record h with
    | Some previous =>
        if existsb (fun keyword => Py.contains (Py.lower input) keyword)
                   App3Japanese.follow_up_keywords
        then App3Japanese.show_turn previous ++ " "
             ++ "User: " ++ input ++ " Bot: "
        else "User: " ++ input ++ " Bot: "
    | None => "User: " ++ input ++ " Bot: "
    end.
Proof.
  unfold App3Japanese.get_relevant_context.
  cbn [App3Japanese.history].
  set (turn := {| App3Japanese.user_input := input;
                  App3Japanese.bot_response := EmptyString |}).
  assert (Hone : Py.last_n 1 (h ++ [turn])%list = [turn])
    by apply (last_n_suffix h [turn]).
  assert (Hshow : App3Japanese.show_turn turn = "User: " ++ input ++ " Bot: ").
  { unfold App3Japanese.show_turn, turn. reflexivity. }
  unfold last_record.
  destruct (rev h) as [|previous before] eqn:Hrev.
  - apply (f_equal (@rev _)) in Hrev. rewrite rev_involutive in Hrev.
    subst h. cbn [app length Nat.ltb Nat.leb]. rewrite andb_false_r.
    change (Py.last_n 1 [turn]) with [turn]. cbn [map Py.join].
    exact Hshow.
  - apply (f_equal (@rev _)) in Hrev. rewrite rev_involutive in Hrev.
    cbn [rev] in Hrev. subst h.
    assert (Hlen : (1 <? length ((rev before ++ [previous]) ++ [turn]))%nat
                   = true).
    { apply Nat.ltb_lt. rewrite !length_app. cbn. lia. }
    rewrite Hlen, andb_true_r.
    destruct (existsb _ App3Japanese.follow_up_keywords).
    + rewrite <- app_assoc. cbn [app].
      assert (Htwo : Py.last_n 2 (rev before ++ [previous; turn])%list
                     = [previous; turn])
        by apply (last_n_suffix (rev before) [previous; turn]).
      rewrite Htwo. cbn [map Py.join]. now rewrite Hshow.
    + rewrite Hone. cbn [map Py.join]. exact Hshow.
Qed.

Lemma matched_call_result (input matched : string)
    (ch : App3Japanese.ContextHistory) (threshold : Q) :
  existsb (String.eqb (Py.lower input)) App3Japanese.greetings = false ->
  App3Japanese.find_best_context (Py.lower input) threshold
  = Ok (Some matched) ->
  Py.truthy matched = true ->
  exists response,
    App3Japanese.get_response input ch threshold
    = Ok (response,
          {| App3Japanese.context :=
               (App3Japanese.context ch ++ [matched])%list;
             App3Japanese.history :=
               Py.last_n 10
                 (App3Japanese.history ch
                  ++ [{| App3Japanese.user_input := Py.lower input;
                         App3Japanese.bot_response := response |}])%list |})
    /\ response
       = generate_response_with_gemini
           (App3Japanese.make_prompt (Py.lower input)
              (App3Japanese.get_relevant_context (Py.lower input)
                 {| App3Japanese.context :=
                      (App3Japanese.context ch ++ [matched])%list;
                    App3Japanese.history :=
                      (App3Japanese.history ch
                       ++ [{| App3Japanese.user_input := Py.lower input;
                              App3Japanese.bot_response :=
                                EmptyString |}])%list |})
              matched).
Proof.
  intros Hgreet Hfind Htruthy.
  unfold App3Japanese.get_response.
  rewrite Hgreet, Hfind; cbn [bind].
  destruct matched as [|x matched]; [discriminate|].
  eexists. split; [|reflexivity].
  cbn [App3Japanese.history App3Japanese.context].
  rewrite set_last_response_app. cbn [App3Japanese.user_input].
  match goal with
  | |- context [if ?cond then _ else _] => destruct cond eqn:Hlen
  end.
  - reflexivity.
  - apply Nat.ltb_ge in Hlen. now rewrite (last_n_all 10 _ Hlen).
Qed.

End MatchedCall.

Lemma lower_char_idempotent (c : ascii) :
  Py.lower_char (Py.lower_char c) = Py.lower_char c.
Proof.
  destruct c as [[] [] [] [] [] [] [] []]; reflexivity.
Qed.

Lemma lower_idempotent (s : string) : Py.lower (Py.lower s) = Py.lower s.
Proof.
  induction s as [|c s IH]; cbn [Py.lower]; [reflexivity|].
  now rewrite lower_char_idempotent, IH.
Qed.

(** X13. A call of app3Japanese.py that finds a record asks the
    generator with a prompt whose context is the current input with an
    empty reply, preceded by the previous exchange only when the input
    contains a follow-up keyword (older exchanges never appear); it
    appends the matched response to the context list, and the exchange to
    the history, of which it keeps the last ten. *)
Theorem matched_call_prompt_and_history :
  forall (M : EmbeddingModel) (B : @CsvBase M) (G : Generator)
         (input matched : string) (ch : App3Japanese.ContextHistory)
         (threshold : Q),
    existsb (String.eqb (Py.lower input)) App3Japanese.greetings = false ->
    App3Japanese.find_best_context (Py.lower input) threshold
    = Ok (Some matched) ->
    Py.truthy matched = true ->
    let current := "User: " ++ Py.lower input ++ " Bot: " in
    let relevant :=
      match last_record (App3Japanese.history ch) with
      | Some previous =>
          if existsb (fun keyword => Py.contains (Py.lower input) keyword)
                     App3Japanese.follow_up_keywords
          then App3Japanese.show_turn previous ++ " " ++ current
          else current
      | None => current
      end in
    let response :=
      generate_response_with_gemini
        (App3Japanese.make_prompt (Py.lower input) relevant matched) in
    App3Japanese.get_response input ch threshold
    = Ok (response,
          {| App3Japanese.context :=
               (App3Japanese.context ch ++ [matched])%list;
             App3Japanese.history :=
               Py.last_n 10
                 (App3Japanese.history ch
                  ++ [{| App3Japanese.user_input := Py.lower input;
                         App3Japanese.bot_response := response |}])%list |}).
Proof.
  intros M B G input matched ch threshold Hgreet Hfind Htruthy.
  cbv zeta.
  destruct (matched_call_result input matched ch threshold
              Hgreet Hfind Htruthy) as (response & Hcall & Hresponse).
  rewrite relevant_context_of_current, lower_idempotent in Hresponse.
  rewrite Hcall, Hresponse. reflexivity.
Qed.

Lemma matched_call_prompt_and_history_witness :
  @App3Japanese.get_response _ Demo.csv Demo.generator "What about Angina"
    {| App3Japanese.context := ["earlier"];
       App3Japanese.history :=
         [{| App3Japanese.user_input := "hello";
             App3Japanese.bot_response := "welcome" |}] |}
    (4 # 10)
  = Ok ("Here is what I found.",
        {| App3Japanese.context := ["earlier"; "Angina is chest pain."];
           App3Japanese.history :=
             [{| App3Japanese.user_input := "hello";
                 App3Japanese.bot_response := "welcome" |};
              {| App3Japanese.user_input := "what about angina";
                 App3Japanese.bot_response := "Here is what I found." |}] |}).
Proof.
  exact (matched_call_prompt_and_history Demo.east Demo.csv Demo.generator
           "What about Angina" "Angina is chest pain."
           {| App3Japanese.context := ["earlier"];
              App3Japanese.history :=
                [{| App3Japanese.user_input := "hello";
                    App3Japanese.bot_response := "welcome" |}] |}
           (4 # 10) eq_refl eq_refl eq_refl).
Defined.

Section MatchedSession.
Context `{B : CsvBase} {G : Generator}.

Lemma matched_session_shape (inputs : list string)
    (ch ch' : App3Japanese.ContextHistory) :
  Forall (fun input =>
            existsb (String.eqb (Py.lower input)) App3Japanese.greetings
            = false
            /\ exists matched,
                 App3Japanese.find_best_context (Py.lower input) (4 # 10)
                 = Ok (Some matched)
                 /\ Py.truthy matched = true)
         inputs ->
  (length (App3Japanese.history ch) <= 10)%nat ->
  App3Japanese.session inputs ch = Ok ch' ->
  map App3Japanese.user_input (App3Japanese.history ch')
  = Py.last_n 10 (map App3Japanese.user_input (App3Japanese.history ch)
                  ++ map Py.lower inputs)%list
  /\ length (App3Japanese.context ch')
     = (length (App3Japanese.context ch) + length inputs)%nat.
Proof.
  intros Hall; revert ch;
    induction Hall as [|input inputs [Hgreet (matched & Hfind & Ht)] _ IH];
    intros ch Hlen; cbn [App3Japanese.session map length].
  - intros Heq; inversion Heq; subst.
    rewrite app_nil_r, last_n_all by (now rewrite length_map).
    split; [reflexivity | lia].
  - destruct (matched_call_result input matched ch (4 # 10)
                Hgreet Hfind Ht) as (response & Hcall & _).
    rewrite Hcall; cbn [bind]. intros Hrest.
    apply IH in Hrest; [|cbn [App3Japanese.history]; apply last_n_length].
    cbn [App3Japanese.history App3Japanese.context] in Hrest.
    destruct Hrest as [Hhist Hctx]. split.
    + rewrite Hhist, last_n_map, map_app, last_n_app_last_n.
      cbn [map App3Japanese.user_input]. now rewrite <- app_assoc.
    + rewrite Hctx, length_app. cbn. lia.
Qed.

End MatchedSession.

(** X14. In a session of app3Japanese.py all of whose inputs find a
    record, starting from a history of at most ten exchanges, the history
    holds the inputs of the last ten exchanges, oldest first, while
    the context list grows by one entry per input and is never
    truncated. *)
Theorem matched_session_keeps_last_ten :
  forall (M : EmbeddingModel) (B : @CsvBase M) (G : Generator)
         (inputs : list string) (ch ch' : App3Japanese.ContextHistory),
    Forall (fun input =>
              existsb (String.eqb (Py.lower input)) App3Japanese.greetings
              = false
              /\ exists matched,
                   App3Japanese.find_best_context (Py.lower input) (4 # 10)
                   = Ok (Some matched)
                   /\ Py.truthy matched = true)
           inputs ->
    (length (App3Japanese.history ch) <= 10)%nat ->
    App3Japanese.session inputs ch = Ok ch' ->
    map App3Japanese.user_input (App3Japanese.history ch')
    = Py.last_n 10 (map App3Japanese.user_input (App3Japanese.history ch)
                    ++ map Py.lower inputs)%list
    /\ length (App3Japanese.context ch')
       = (length (App3Japanese.context ch) + length inputs)%nat.
Proof.
  intros M B G inputs ch ch'. apply matched_session_shape.
Qed.

Lemma matched_session_keeps_last_ten_witness :
  exists ch',
    @App3Japanese.session _ Demo.csv Demo.generator Demo.eleven_inputs
      App3Japanese.empty_history = Ok ch'
    /\ map App3Japanese.user_input (App3Japanese.history ch')
       = tl Demo.eleven_inputs
    /\ length (App3Japanese.context ch') = 11%nat.
Proof.
  assert (Hall :
    Forall (fun input =>
              existsb (String.eqb (Py.lower input)) App3Japanese.greetings
              = false
              /\ exists matched,
                   @App3Japanese.find_best_context _ Demo.csv
                     (Py.lower input) (4 # 10) = Ok (Some matched)
                   /\ Py.truthy matched = true)
           Demo.eleven_inputs).
  { repeat (constructor;
            [split; [reflexivity
                    | exists "Angina is chest pain."; split; reflexivity]|]).
    constructor. }
  destruct (@App3Japanese.session _ Demo.csv Demo.generator
              Demo.eleven_inputs App3Japanese.empty_history)
    as [ch'|err] eqn:Hsession.
  - exists ch'. split; [reflexivity|].
    exact (matched_session_keeps_last_ten Demo.east Demo.csv Demo.generator
             Demo.eleven_inputs App3Japanese.empty_history ch' Hall
             (Nat.le_0_l 10) Hsession).
  - vm_compute in Hsession. discriminate.
Defined.

(** ** Splitting, joining and spelling correction *)

Lemma string_app_nil (s : string) : s ++ EmptyString = s.
Proof.
  induction s as [|c s IH]; cbn; [reflexivity | now rewrite IH].
Qed.

Lemma no_space_app (a b : string) :
  no_space (a ++ b) = no_space a && no_space b.
Proof.
  induction a as [|c a IH]; cbn; [reflexivity|].
  now rewrite IH, andb_assoc.
Qed.

Lemma split_from_word (w rest cur : string) :
  no_space w = true ->
  Py.split_from cur (w ++ rest) = Py.split_from (cur ++ w) rest.
Proof.
  revert cur; induction w as [|c w IH]; intros cur Hw; cbn in *.
  - now rewrite string_app_nil.
  - apply andb_true_iff in Hw. destruct Hw as [Hc Hw].
    apply negb_true_iff in Hc. rewrite Hc, IH by exact Hw.
    now rewrite string_app_assoc.
Qed.

Lemma flush_word (w : string) (k : list string) :
  Py.truthy w = true -> Py.flush w k = w :: k.
Proof. now destruct w. Qed.

(** Joining words with single spaces and splitting again gives the
    words back. *)
Lemma split_join_words (words : list string) :
  forallb is_word words = true ->
  Py.split (Py.join " " words) = words.
Proof.
  unfold Py.split.
  induction words as [|w words IH]; [reflexivity|].
  cbn [forallb]. rewrite andb_true_iff. unfold is_word at 1.
  rewrite andb_true_iff. intros [[Hne Hns] Hrest].
  destruct words as [|w' words].
  - cbn [Py.join]. rewrite <- (string_app_nil w) at 1.
    rewrite split_from_word by exact Hns. cbn. now apply flush_word.
  - change (Py.join " " (w :: w' :: words))
      with (w ++ " " ++ Py.join " " (w' :: words)).
    rewrite split_from_word by exact Hns.
    change (" " ++ Py.join " " (w' :: words))
      with (String " " (Py.join " " (w' :: words))).
    cbn [Py.split_from append].
    change (Py.isspace " ") with true. cbv iota.
    rewrite flush_word by exact Hne. now rewrite IH.
Qed.

Lemma split_from_words (s cur : string) :
  no_space cur = true -> forallb is_word (Py.split_from cur s) = true.
Proof.
  revert cur; induction s as [|c s IH]; intros cur Hcur;
    cbn [Py.split_from].
  - destruct cur; [reflexivity|].
    cbn [Py.flush forallb]. unfold is_word. now rewrite Hcur.
  - destruct (Py.isspace c) eqn:Hc.
    + destruct cur as [|x cur].
      * cbn [Py.flush]. now apply IH.
      * cbn [Py.flush forallb]. unfold is_word at 1. rewrite Hcur.
        cbn [Py.truthy andb]. now apply IH.
    + apply IH. rewrite no_space_app, Hcur. cbn. now rewrite Hc.
Qed.

(** Every element of [split] is a word. *)
Lemma split_words (s : string) : forallb is_word (Py.split s) = true.
Proof. now apply split_from_words. Qed.

Section Spelling.
Context {Sp : SpellChecker}.

Lemma correct_word_is_word (w : string) :
  (forall word fixed,
      correction word = Some fixed -> Py.truthy fixed = true ->
      is_word fixed = true) ->
  is_word w = true -> is_word (Logic1.correct_word w) = true.
Proof.
  intros Hchecker Hw. unfold Logic1.correct_word, truthy_opt.
  destruct (correction w) as [fixed|] eqn:Hc; [|exact Hw].
  destruct (Py.truthy fixed) eqn:Ht; [|exact Hw].
  now apply (Hchecker w).
Qed.

Lemma corrected_words_are_words (words : list string) :
  (forall word fixed,
      correction word = Some fixed -> Py.truthy fixed = true ->
      is_word fixed = true) ->
  forallb is_word words = true ->
  forallb is_word (map Logic1.correct_word words) = true.
Proof.
  intros Hchecker. induction words as [|w words IH]; [reflexivity|].
  cbn [forallb map]. rewrite !andb_true_iff. intros [Hw Hrest].
  split; [now apply correct_word_is_word | now apply IH].
Qed.

Lemma corrected_text_words (text : string) :
  (forall word fixed,
      correction word = Some fixed -> Py.truthy fixed = true ->
      is_word fixed = true) ->
  Py.split (Logic1.correct_spelling text)
  = if (1 <? length (Py.split text))%nat
    then map Logic1.correct_word (Py.split text)
    else Py.split text.
Proof.
  intros Hchecker. unfold Logic1.correct_spelling.
  destruct (1 <? length (Py.split text))%nat; [|reflexivity].
  apply split_join_words, corrected_words_are_words; trivial.
  apply split_words.
Qed.

End Spelling.

(** X15. If every correction the spell checker proposes is a single
    word, the text returned by [correct_spelling] for a text of two or
    more words has exactly the words of the input, each replaced by its
    correction, at the same positions; both copies of the function
    (Logic1_OnlyCSV.py and maxFromEachColumn.py) are the same. *)
Theorem corrected_text_keeps_word_positions :
  forall (Sp : SpellChecker) (text : string),
    (forall word fixed,
        correction word = Some fixed -> Py.truthy fixed = true ->
        is_word fixed = true) ->
    (1 < length (Py.split text))%nat ->
    Py.split (Logic1.correct_spelling text)
    = map Logic1.correct_word (Py.split text)
    /\ MaxFromEachColumn.correct_spelling text
       = Logic1.correct_spelling text.
Proof.
  intros Sp text Hchecker Hlen. split; [|reflexivity].
  rewrite corrected_text_words by exact Hchecker.
  apply Nat.ltb_lt in Hlen. now rewrite Hlen.
Qed.

(** X16. If moreover no correction is itself corrected,
    [correct_spelling] is idempotent: correcting a corrected text changes
    nothing. *)
Theorem correct_spelling_idempotent :
  forall (Sp : SpellChecker) (text : string),
    (forall word fixed,
        correction word = Some fixed -> Py.truthy fixed = true ->
        is_word fixed = true /\ Logic1.correct_word fixed = fixed) ->
    Logic1.correct_spelling (Logic1.correct_spelling text)
    = Logic1.correct_spelling text.
Proof.
  intros Sp text Hchecker.
  assert (Hwords : forall word fixed,
             correction word = Some fixed -> Py.truthy fixed = true ->
             is_word fixed = true)
    by (intros word fixed Hc Ht; now apply (Hchecker word fixed)).
  assert (Hidem : forall w,
             Logic1.correct_word (Logic1.correct_word w)
             = Logic1.correct_word w).
  { intros w. unfold Logic1.correct_word at 2 3, truthy_opt.
    destruct (correction w) as [fixed|] eqn:Hc.
    - destruct (Py.truthy fixed) eqn:Ht.
      + now apply (Hchecker w fixed).
      + unfold Logic1.correct_word, truthy_opt. now rewrite Hc, Ht.
    - unfold Logic1.correct_word, truthy_opt. now rewrite Hc. }
  unfold Logic1.correct_spelling at 1.
  rewrite corrected_text_words by exact Hwords.
  unfold Logic1.correct_spelling.
  destruct (1 <? length (Py.split text))%nat eqn:Hlen; [|now rewrite Hlen].
  rewrite length_map, Hlen, map_map. f_equal.
  apply map_ext. exact Hidem.
Qed.

Lemma demo_checker_single_words (word fixed : string) :
  @correction Demo.checker word = Some fixed ->
  Py.truthy fixed = true ->
  is_word fixed = true /\ @Logic1.correct_word Demo.checker fixed = fixed.
Proof.
  cbn [correction Demo.checker]. unfold Demo.fix_word.
  destruct (String.eqb word "wat").
  - intros Heq _. inversion Heq. now split.
  - destruct (String.eqb word "angna"); [|discriminate].
    intros Heq _. inversion Heq. now split.
Qed.

Lemma corrected_text_keeps_word_positions_witness :
  Py.split (@Logic1.correct_spelling Demo.checker "wat  is angna")
  = ["what"; "is"; "angina"].
Proof.
  refine (proj1 (corrected_text_keeps_word_positions Demo.checker
                   "wat  is angna" _ _)).
  - intros word fixed Hc Ht.
    exact (proj1 (demo_checker_single_words word fixed Hc Ht)).
  - vm_compute. lia.
Defined.

Lemma correct_spelling_idempotent_witness :
  @Logic1.correct_spelling Demo.checker
    (@Logic1.correct_spelling Demo.checker "wat  is angna")
  = "what is angina".
Proof.
  exact (correct_spelling_idempotent Demo.checker "wat  is angna"
           demo_checker_single_words).
Defined.

(** ** The router of maxFromEachColumn.py *)



(** ** The orchestrator of Logic1_OnlyCSV.py *)

(** X18. Whatever it is asked, the orchestrator of Logic1_OnlyCSV.py
    never answers with the empty string: a stored response is used only
    if it is non-empty, and otherwise the answer is the placeholder of the
    generator or the fixed refusal. *)
Theorem logic1_response_never_empty :
  forall (M : EmbeddingModel) (B : @CsvBase M) (Sp : SpellChecker)
         (user_input : string) (threshold : Q) (response : string)
         (log : list string),
    Logic1.get_response user_input threshold = Ok (response, log) ->
    response <> EmptyString.
Proof.
  intros M B Sp user_input threshold response log.
  assert (Hstored : forall (found : option string) (l : list string),
             truthy_opt found = true ->
             Ok (match found with Some r => r | None => EmptyString end, l)
             = Ok (response, log) ->
             response <> EmptyString).
  { intros [r|] l Ht Heq; [|discriminate].
    inversion Heq; subst. now destruct response. }
  assert (Hgate : forall (text : string) (l : list string),
             Ok (Logic1.gate text l) = Ok (response, log) ->
             response <> EmptyString).
  { intros text l. unfold Logic1.gate.
    destruct (Logic1.is_domain_relevant text (4 # 10));
      intros Heq; inversion Heq; subst; discriminate. }
  unfold Logic1.get_response.
  destruct (Logic1.find_best_context user_input threshold)
    as [found|err]; cbn [bind]; [|discriminate].
  destruct (truthy_opt found) eqn:Ht; [now apply Hstored|].
  destruct (negb _); [|apply Hgate].
  destruct (Logic1.find_best_context _ threshold)
    as [found'|err]; cbn [bind]; [|discriminate].
  destruct (truthy_opt found') eqn:Ht'; [now apply Hstored | apply Hgate].
Qed.

Lemma logic1_response_never_empty_witness :
  "Angina is chest pain." <> EmptyString.
Proof.
  exact (logic1_response_never_empty Demo.east Demo.csv Demo.checker
           "chest pain" (5 # 10) "Angina is chest pain." ["Direct Match"]
           eq_refl).
Defined.

(** ** Case of the query, and answers that are guaranteed *)

(** X19. The matcher, the router and the domain gate of
    response_generation.py do not depend on the case of the query: the
    lower-cased query gives the same result. *)
Theorem query_case_is_irrelevant :
  forall (M : EmbeddingModel) (E : @Embeddings M) (Hp : Helpers)
         (query : string) (threshold : Q) (obj : pyobj),
    ResponseGeneration.find_best_context (Py.lower query) threshold
    = ResponseGeneration.find_best_context query threshold
    /\ ResponseGeneration.match_columns (Py.lower query) obj
       = ResponseGeneration.match_columns query obj
    /\ ResponseGeneration.is_domain_relevant (Py.lower query) threshold
       = ResponseGeneration.is_domain_relevant query threshold.
Proof.
  intros M E Hp query threshold obj.
  unfold ResponseGeneration.find_best_context,
    ResponseGeneration.match_columns, ResponseGeneration.is_domain_relevant.
  rewrite !lower_strip, !lower_idempotent. now repeat split.
Qed.

Lemma truthy_app (a b : string) :
  Py.truthy a = true -> Py.truthy (a ++ b) = true.
Proof. now destruct a. Qed.

Lemma join_truthy (sep x : string) (l : list string) :
  Py.truthy x = true -> Py.truthy (Py.join sep (x :: l)) = true.
Proof.
  intros Hx. destruct l; cbn [Py.join]; [exact Hx | now apply truthy_app].
Qed.

Lemma answered_hits_truthy (table : list (Intent * list string))
    (query_lower : string) (item : Item) :
  Forall (fun hit => Py.truthy (snd hit) = true)
         (answered_hits table query_lower item).
Proof.
  unfold answered_hits. rewrite Forall_map, Forall_forall.
  intros hit Hin. apply filter_In in Hin. exact (proj2 Hin).
Qed.

(** X20. A record with a non-empty What column is always routed to a
    non-empty answer: the router of response_generation.py neither raises
    nor reaches the embedding fallback for it, whatever the query. *)
Theorem what_column_guarantees_answer :
  forall (M : EmbeddingModel) (E : @Embeddings M) (Hp : Helpers)
         (query : string) (item : Item),
    Py.truthy (col_What item) = true ->
    exists answer flag,
      ResponseGeneration.match_columns query (PyDict item)
      = Ok (answer, flag)
      /\ Py.truthy answer = true.
Proof.
  intros M E Hp query item Hwhat. rewrite match_columns_dict.
  pose proof (answered_hits_truthy ResponseGeneration.intent_words
                (correct_spelling (Py.lower query)) item) as Htruthy.
  destruct (answered_hits ResponseGeneration.intent_words
              (correct_spelling (Py.lower query)) item) as [|h hits].
  - rewrite Hwhat. now exists (col_What item), 1%nat.
  - eexists _, _. split; [reflexivity|].
    destruct (sort_by_position_cons h hits) as (h' & hits' & Hs).
    pose proof (sort_by_position_perm (h :: hits)) as Hperm.
    rewrite Hs in *. cbn [map]. apply join_truthy.
    apply (Permutation_Forall (Permutation_sym Hperm)) in Htruthy.
    now inversion Htruthy.
Qed.

Lemma what_column_guarantees_answer_witness :
  exists answer flag,
    @ResponseGeneration.match_columns _ Demo.kb Demo.no_correction
      "symptoms of angina" (PyDict Demo.cholesterol)
    = Ok (answer, flag)
    /\ Py.truthy answer = true.
Proof.
  exact (what_column_guarantees_answer Demo.east Demo.kb Demo.no_correction
           "symptoms of angina" Demo.cholesterol eq_refl).
Defined.

(** X21. When the database and the stored embeddings have the same
    length, the matcher of response_generation.py returns for every query
    and threshold: no index is out of range in either pass. *)
Theorem matcher_never_raises :
  forall (M : EmbeddingModel) (E : @Embeddings M) (query : string)
         (threshold : Q),
    length db_embeddings = length database ->
    exists returned,
      ResponseGeneration.find_best_context query threshold = Ok returned.
Proof.
  intros M E query threshold Hlen. now apply find_best_context_total.
Qed.

Lemma matcher_never_raises_witness :
  exists returned,
    @ResponseGeneration.find_best_context _ Demo.kb "what is football"
      (3 # 10) = Ok returned.
Proof.
  exact (matcher_never_raises Demo.east Demo.kb "what is football"
           (3 # 10) eq_refl).
Defined.

Lemma match_generator_out_of_range `{E : Embeddings}
    (query_words : list string) (embs : list ItemEmbeddings) (index : nat) :
  (index <= length database)%nat ->
  (length database < index + length embs)%nat ->
  ResponseGeneration.match_generator query_words index embs
  = Raise IndexError.
Proof.
  revert index; induction embs as [|e embs IH]; intros index Hle Hlt;
    cbn [ResponseGeneration.match_generator length] in *; [lia|].
  unfold Py.getitem at 1.
  destruct (nth_error database index) as [item|] eqn:Hnth;
    [|reflexivity].
  cbn [bind].
  assert (Hin : (index < length database)%nat)
    by (apply nth_error_Some; congruence).
  rewrite IH by lia. reflexivity.
Qed.

(** X22. When there are more stored embeddings than records, the
    matcher of response_generation.py raises [IndexError] for every query,
    already in its first pass. *)
Theorem matcher_raises_on_missing_records :
  forall (M : EmbeddingModel) (E : @Embeddings M) (query : string)
         (threshold : Q),
    (length database < length db_embeddings)%nat ->
    ResponseGeneration.find_best_context query threshold = Raise IndexError.
Proof.
  intros M E query threshold Hlt.
  unfold ResponseGeneration.find_best_context.
  rewrite match_generator_out_of_range by lia. reflexivity.
Qed.

Lemma matcher_raises_on_missing_records_witness :
  @ResponseGeneration.find_best_context _
    (Demo.base [Demo.angina]
       [Demo.emb (7 # 25, 24 # 25) Demo.blank Demo.blank;
        Demo.emb (3 # 5, 4 # 5) Demo.blank Demo.blank])
    "angina" (3 # 10)
  = Raise IndexError.
Proof.
  refine (matcher_raises_on_missing_records Demo.east _ "angina" (3 # 10) _).
  cbn. lia.
Defined.

(** ** The fuzzy corrector of dict.py *)

Section FuzzyCorrector.
Context {C : CloseMatches} {A : ScoreArith}.

Lemma skipn_succ_length {X : Type} (k : nat) (x : X) (l : list X) :
  (length (skipn (k + 1) (x :: l)) <= length l)%nat.
Proof.
  rewrite Nat.add_1_r. cbn [skipn]. rewrite length_skipn. lia.
Qed.

(** Any fuel that covers the words still to be read gives the same
    result: the loop always ends by exhausting the words. *)
Lemma correct_words_fuel (fuel fuel' : nat) (remaining : list string) :
  (length remaining <= fuel)%nat ->
  (length remaining <= fuel')%nat ->
  Dict.correct_words fuel remaining = Dict.correct_words fuel' remaining.
Proof.
  revert fuel' remaining; induction fuel as [|fuel IH];
    intros fuel' remaining Hfuel Hfuel'.
  - destruct remaining; [now destruct fuel' | cbn in Hfuel; lia].
  - destruct fuel' as [|fuel'];
      [destruct remaining; [reflexivity | cbn in Hfuel'; lia]|].
    destruct remaining as [|word rest]; [reflexivity|].
    cbn [Dict.correct_words length] in *.
    destruct (Dict.best_match_at (word :: rest)) as [[|c best]|];
      f_equal; apply IH;
      try (pose proof (skipn_succ_length 0 word rest)
             as Hs; cbn [Nat.add] in Hs; lia);
      pose proof (skipn_succ_length (Dict.count_spaces (String c best))
                    word rest); lia.
Qed.

Lemma correct_words_length (fuel : nat) (remaining : list string) :
  (length (Dict.correct_words fuel remaining) <= length remaining)%nat.
Proof.
  revert remaining; induction fuel as [|fuel IH]; intros remaining;
    [cbn; lia|].
  destruct remaining as [|word rest]; [cbn; lia|].
  cbn [Dict.correct_words length].
  destruct (Dict.best_match_at (word :: rest)) as [[|c best]|];
    cbn [length].
  - specialize (IH (skipn 1 (word :: rest))).
    pose proof (skipn_succ_length 0 word rest) as Hs.
    cbn [Nat.add] in Hs. lia.
  - specialize (IH (skipn (Dict.count_spaces (String c best) + 1)
                          (word :: rest))).
    pose proof (skipn_succ_length (Dict.count_spaces (String c best))
                  word rest). lia.
  - specialize (IH (skipn 1 (word :: rest))).
    pose proof (skipn_succ_length 0 word rest) as Hs.
    cbn [Nat.add] in Hs. lia.
Qed.

End FuzzyCorrector.

(** X23. The corrector of dict.py never produces more entries than
    the text has words, and its loop always ends by exhausting the words:
    the entries are the same for any number of rounds that is at least the
    number of words. *)
Theorem fuzzy_corrector_consumes_words :
  forall (C : CloseMatches) (A : ScoreArith) (text : string) (rounds : nat),
    (length (Py.split text) <= rounds)%nat ->
    Dict.correct_words rounds (Py.split text)
    = Dict.correct_words (length (Py.split text)) (Py.split text)
    /\ (length (Dict.correct_words rounds (Py.split text))
        <= length (Py.split text))%nat.
Proof.
  intros C A text rounds Hrounds. split.
  - now apply correct_words_fuel.
  - apply correct_words_length.
Qed.

Lemma fuzzy_corrector_consumes_words_witness :
  @Dict.correct_words Examples.phrase_matches Examples.rational_scores 7
    (Py.split "my blood presure is high")
  = ["my"; "high blood pressure"; "high"].
Proof.
  refine (eq_trans
            (proj1 (fuzzy_corrector_consumes_words Examples.phrase_matches
                      Examples.rational_scores "my blood presure is high"
                      7 _)) _).
  - vm_compute. lia.
  - vm_compute. reflexivity.
Defined.

(** X24. In dict.py the number of words skipped after a match is the
    number of spaces of the match plus one, not the number of words that
    were compared.  When the best match at two words is a phrase with two
    spaces, the third word is dropped unread: replacing it by any other
    word does not change the result. *)
Theorem three_word_match_drops_a_word :
  forall (C : CloseMatches) (A : ScoreArith) (first second : string)
         (best_match : string) (third third' : string) (rest : list string)
         (fuel : nat),
    Dict.best_match_at [first; second] = Some best_match ->
    Py.truthy best_match = true ->
    Dict.count_spaces best_match = 2%nat ->
    Dict.correct_words (S fuel) (first :: second :: third :: rest)
    = best_match :: Dict.correct_words fuel rest
    /\ Dict.correct_words (S fuel) (first :: second :: third' :: rest)
       = Dict.correct_words (S fuel) (first :: second :: third :: rest).
Proof.
  intros C A first second best_match third third' rest fuel
    Hbest Htruthy Hspaces.
  assert (Hstep : forall w,
             Dict.correct_words (S fuel) (first :: second :: w :: rest)
             = best_match :: Dict.correct_words fuel rest).
  { intros w. cbn [Dict.correct_words].
    change (Dict.best_match_at (first :: second :: w :: rest))
      with (Dict.best_match_at [first; second]).
    rewrite Hbest. destruct best_match as [|c m]; [discriminate|].
    now rewrite Hspaces. }
  split; [apply Hstep | now rewrite !Hstep].
Qed.

Lemma three_word_match_drops_a_word_witness :
  @Dict.correct_spelling Examples.phrase_matches Examples.rational_scores
    "blood presure is high"
  = "high blood pressure high".
Proof.
  pose proof (three_word_match_drops_a_word Examples.phrase_matches
                Examples.rational_scores "blood" "presure"
                "high blood pressure" "is" "is" ["high"] 3
                eq_refl eq_refl eq_refl) as [Hstep _].
  unfold Dict.correct_spelling.
  change (Py.split "blood presure is high")
    with ["blood"; "presure"; "is"; "high"].
  cbn [length]. rewrite Hstep. reflexivity.
Defined.

(** ** The orchestrator of maxFromEachColumn.py *)

(** X25. The orchestrator of maxFromEachColumn.py hands the
    conversation history back exactly as it received it, on every path:
    recording the exchange is left to the endpoint. *)
Theorem get_response_leaves_history :
  forall (M : EmbeddingModel) (E : @Embeddings M) (Sp : SpellChecker)
         (user_input : string) (context_history : list (string * string))
         (threshold : Q) (response : string)
         (returned : list (string * string)),
    MaxFromEachColumn.get_response user_input context_history threshold
    = Ok (response, returned) ->
    returned = context_history.
Proof.
  intros M E Sp user_input context_history threshold response returned.
  unfold MaxFromEachColumn.get_response.
  destruct (MaxFromEachColumn.find_best_context user_input threshold)
    as [[item|]|err]; cbn [bind]; try discriminate.
  - destruct (MaxFromEachColumn.match_column user_input item);
      cbn [bind]; intros Heq; now inversion Heq.
  - destruct (if negb _ then _ else _) as [[item|]|err]; cbn [bind];
      try discriminate.
    + destruct (MaxFromEachColumn.match_column _ item);
        cbn [bind]; intros Heq; now inversion Heq.
    + destruct (MaxFromEachColumn.is_domain_relevant _ _);
        intros Heq; now inversion Heq.
Qed.

Lemma get_response_leaves_history_witness :
  [("hello", "welcome")] = [("hello", "welcome")].
Proof.
  exact (get_response_leaves_history Demo.east Demo.kb Demo.checker
           "wat is angna" [("hello", "welcome")] (99 # 100)
           placeholder_response [("hello", "welcome")] eq_refl).
Defined.
